(** * Treehouse scraper: extraction, schema and selector diagnostics

    A shallow embedding of [treehouse/scraper/extraction.py],
    [treehouse/scraper/models.py] and the [validate_selector] function of
    [treehouse/scraper/verify_selectors.py], with the properties of the
    extraction-and-validation pipeline proved about it.

    Conventions.
    - Python exceptions are values of [exn]; a function that can raise
      returns [result A].
    - Text is a [string] whose characters are the code points U+0000 to
      U+00FF, a character being its code point; [str.isspace],
      [str.isdigit], [str.lower] and the characters that [int] and [float]
      read as decimal digits are modelled on that range.
    - [float] is Python's binary64 type.  Its arithmetic is never used by
      the code, only [float(str)], comparison with the bounds [0] and [5],
      and truth value, so the type and these operations are an interface
      ([PyFloat]); a decimal instance is given to run the examples. *)

From Stdlib Require Import ZArith QArith String Ascii List Bool Lia.
From stdpp Require Import base option list strings gmap.

Set Warnings "-register-all,-automation".

Local Open Scope string_scope.
Local Open Scope Z_scope.

(** ** Python builtins used by the scraper *)

Module Py.

(** Exceptions that the modelled code raises or lets escape.  A
    [ValidationError] is pydantic's: the model name and one
    [(field, message)] entry per failing field. *)
Inductive exn : Type :=
| ValueError (msg : string)
| AttributeError (msg : string)
| IndexError (msg : string)
| ValidationError (model : string) (errors : list (string * string)).

Inductive result (A : Type) : Type :=
| Ok (a : A)
| Raise (e : exn).
Arguments Ok {A} a.
Arguments Raise {A} e.

Definition bind {A B} (r : result A) (k : A -> result B) : result B :=
  match r with
  | Ok a => k a
  | Raise e => Raise e
  end.

Global Instance result_ret : MRet result := @Ok.
Global Instance result_bind : MBind result := fun A B k r => bind r k.

Definition is_ok {A} (r : result A) : bool :=
  match r with Ok _ => true | Raise _ => false end.

(** [str(e)] (the heading only, for a [ValidationError]) *)
Definition exn_str (e : exn) : string :=
  match e with
  | ValueError msg | AttributeError msg | IndexError msg => msg
  | ValidationError model _ => "validation error for " ++ model
  end.

(** [isinstance(e, ValueError)]; pydantic's [ValidationError] derives
    from [ValueError]. *)
Definition is_ValueError (e : exn) : bool :=
  match e with ValueError _ | ValidationError _ _ => true | _ => false end.
Definition is_IndexError (e : exn) : bool :=
  match e with IndexError _ => true | _ => false end.
Definition is_AttributeError (e : exn) : bool :=
  match e with AttributeError _ => true | _ => false end.

(** [try: body  except <caught>: handler] *)
Definition try_except {A} (body : result A) (caught : exn -> bool)
    (handler : result A) : result A :=
  match body with
  | Ok a => Ok a
  | Raise e => if caught e then handler else Raise e
  end.

(** [for x in xs: ys.append(f(x))] where [f] may raise: the first
    exception escapes and nothing is returned. *)
Fixpoint for_each {A B} (f : A -> result B) (xs : list A) : result (list B) :=
  match xs with
  | [] => Ok []
  | x :: xs' =>
      bind (f x) (fun y => bind (for_each f xs') (fun ys => Ok (y :: ys)))
  end.

(** [c.isspace()]: TAB, LF, VT, FF, CR, FS, GS, RS, US, SPACE, NEL
    (U+0085) and NO-BREAK SPACE (U+00A0). *)
Definition isspace (c : ascii) : bool :=
  let n := nat_of_ascii c in
  ((9 <=? n)%nat && (n <=? 13)%nat) || ((28 <=? n)%nat && (n <=? 32)%nat)
  || (n =? 133)%nat || (n =? 160)%nat.

(** [c.isdecimal()]: the digits 0 to 9, the characters that [int] and
    [float] read as decimal digits. *)
Definition isdecimal (c : ascii) : bool :=
  let n := nat_of_ascii c in (48 <=? n)%nat && (n <=? 57)%nat.

(** [c.isdigit()]: the decimal digits and the superscript digits
    U+00B2, U+00B3 and U+00B9, which [int] and [float] refuse. *)
Definition isdigit (c : ascii) : bool :=
  let n := nat_of_ascii c in
  isdecimal c || (n =? 178)%nat || (n =? 179)%nat || (n =? 185)%nat.

Fixpoint lstrip (s : string) : string :=
  match s with
  | String c s' => if isspace c then lstrip s' else s
  | EmptyString => EmptyString
  end.

(** [rstrip] keeps a character when it is not a space or when
    something is left after it. *)
Fixpoint rstrip (s : string) : string :=
  match s with
  | String c s' =>
      match rstrip s' with
      | EmptyString => if isspace c then EmptyString else String c EmptyString
      | r => String c r
      end
  | EmptyString => EmptyString
  end.

(** [s.strip()] *)
Definition strip (s : string) : string := rstrip (lstrip s).

(** [s.split()]: the maximal runs of non-space characters.  [cur] is the
    run being read, reversed. *)
Fixpoint split_go (cur : list ascii) (s : string) : list string :=
  let flush (k : list string) :=
    match cur with
    | [] => k
    | _ => string_of_list_ascii (rev cur) :: k
    end in
  match s with
  | EmptyString => flush []
  | String c s' =>
      if isspace c then flush (split_go [] s') else split_go (c :: cur) s'
  end.

Definition split (s : string) : list string := split_go [] s.

(** [''.join(filter(pred, s))] *)
Fixpoint filter_chars (pred : ascii -> bool) (s : string) : string :=
  match s with
  | EmptyString => EmptyString
  | String c s' =>
      if pred c then String c (filter_chars pred s') else filter_chars pred s'
  end.

Fixpoint all_chars (pred : ascii -> bool) (s : string) : bool :=
  match s with
  | EmptyString => true
  | String c s' => pred c && all_chars pred s'
  end.

(** [bool(s)] for a [str] *)
Definition str_truthy (s : string) : bool :=
  match s with EmptyString => false | _ => true end.

(** Value of a string of decimal digits, most significant first. *)
Fixpoint digits_value (acc : Z) (s : string) : Z :=
  match s with
  | EmptyString => acc
  | String c s' => digits_value (10 * acc + (Z.of_nat (nat_of_ascii c) - 48)) s'
  end.

(** CPython refuses to convert more than this many digits
    ([sys.int_info.default_max_str_digits], Python 3.11). *)
Definition int_max_str_digits : nat := 4300.

(** [int(s)] for the strings the scraper passes to it, which hold
    characters of [str.isdigit] only: [None] is [ValueError], raised for
    the empty string, for a character that is not a decimal digit and
    for too many digits. *)
Definition int_of_digits (s : string) : option Z :=
  match s with
  | EmptyString => None
  | _ =>
      if all_chars isdecimal s && (String.length s <=? int_max_str_digits)%nat
      then Some (digits_value 0 s)
      else None
  end.

(** Python's [float].  [float_of_string s] is [float(s)], [None] being
    [ValueError]; [float_of_Z] is the value of an integer literal;
    [float_leb] is [<=]; [float_truthy x] is [bool(x)].  The three laws
    are the part of the grammar of [float(str)] that the digit filter
    relies on: the empty string is refused, a non-empty run of decimal
    digits is a literal, and a run of [str.isdigit] characters with a
    superscript digit in it is refused. *)
Class PyFloat := {
  float : Type;
  float_of_string : string -> option float;
  float_of_Z : Z -> float;
  float_leb : float -> float -> bool;
  float_truthy : float -> bool;
  float_of_string_empty : float_of_string EmptyString = None;
  float_of_string_digits : forall s,
    s <> EmptyString -> all_chars isdecimal s = true -> is_Some (float_of_string s);
  float_of_string_superscript : forall s,
    all_chars isdigit s = true -> all_chars isdecimal s = false ->
    float_of_string s = None
}.

(** [float(s)] as a computation that may raise. *)
Definition py_float `{PyFloat} (s : string) : result float :=
  match float_of_string s with
  | Some x => Ok x
  | None => Raise (ValueError ("could not convert string to float: " ++ s))
  end.

(** [int(s)] likewise. *)
Definition py_int (s : string) : result Z :=
  match int_of_digits s with
  | Some z => Ok z
  | None => Raise (ValueError ("invalid literal for int() with base 10: " ++ s))
  end.

(** Values held by the [dict]-typed fields of the models. *)
Inductive pyval `{PyFloat} : Type :=
| VNone
| VBool (b : bool)
| VInt (z : Z)
| VFloat (x : float)
| VStr (s : string)
| VList (l : list pyval)
| VDict (d : gmap string pyval).

(** [bool(d)] for a [dict] *)
Definition dict_nonempty {A} (d : gmap string A) : bool :=
  match size d with O => false | _ => true end.

(** [bool(v)] *)
Definition truthy `{PyFloat} (v : pyval) : bool :=
  match v with
  | VNone => false
  | VBool b => b
  | VInt z => negb (z =? 0)
  | VFloat x => float_truthy x
  | VStr s => str_truthy s
  | VList l => match l with [] => false | _ => true end
  | VDict d => dict_nonempty d
  end.

(** [bool(d.get(k))] *)
Definition dict_truthy `{PyFloat} (d : gmap string pyval) (k : string) : bool :=
  match d !! k with
  | Some v => truthy v
  | None => false
  end.

Definition of_option `{PyFloat} {A} (f : A -> pyval) (o : option A) : pyval :=
  match o with Some a => f a | None => VNone end.

End Py.

Export Py.

(** ** A decimal instance of [PyFloat]

    Unsigned decimal literals ([digits], [digits.digits]) with their exact
    rational value.  It is used to run the functions on concrete
    documents; the theorems that are stated for every [PyFloat] do not
    depend on it. *)

Module DecimalFloat.

Fixpoint before_dot (s : string) : string :=
  match s with
  | EmptyString => EmptyString
  | String c s' => if Ascii.eqb c "." then EmptyString else String c (before_dot s')
  end.

Fixpoint after_dot (s : string) : option string :=
  match s with
  | EmptyString => None
  | String c s' => if Ascii.eqb c "." then Some s' else after_dot s'
  end.

Definition decimal_of_string (s : string) : option Q :=
  let i := before_dot s in
  let f := default EmptyString (after_dot s) in
  if all_chars isdecimal i && all_chars isdecimal f && str_truthy (i ++ f)
  then Some (digits_value 0 (i ++ f) # Z.to_pos (10 ^ Z.of_nat (String.length f)))
  else None.

Lemma digit_not_dot c : isdigit c = true -> Ascii.eqb c "." = false.
Proof.
  intros H. destruct (Ascii.eqb_spec c ".") as [->|]; [discriminate H | reflexivity].
Qed.

Lemma decimal_digits s : all_chars isdecimal s = true -> all_chars isdigit s = true.
Proof.
  induction s as [|c s IH]; simpl; [reflexivity|].
  intros [Hc Hs]%andb_prop. unfold isdigit. rewrite Hc. simpl. auto.
Qed.

Lemma before_dot_digits s : all_chars isdigit s = true -> before_dot s = s.
Proof.
  induction s as [|c s IH]; simpl; [reflexivity|].
  intros [Hc Hs]%andb_prop. rewrite (digit_not_dot c Hc). f_equal. auto.
Qed.

Lemma after_dot_digits s : all_chars isdigit s = true -> after_dot s = None.
Proof.
  induction s as [|c s IH]; simpl; [reflexivity|].
  intros [Hc Hs]%andb_prop. rewrite (digit_not_dot c Hc). auto.
Qed.

Lemma decimal_of_string_digits s :
  s <> EmptyString -> all_chars isdecimal s = true -> is_Some (decimal_of_string s).
Proof.
  intros Hne Hd. unfold decimal_of_string.
  rewrite (before_dot_digits s (decimal_digits s Hd)),
          (after_dot_digits s (decimal_digits s Hd)). simpl.
  rewrite Hd. destruct s; [congruence|]. simpl. eauto.
Qed.

Lemma decimal_of_string_superscript s :
  all_chars isdigit s = true -> all_chars isdecimal s = false ->
  decimal_of_string s = None.
Proof.
  intros Hd Hn. unfold decimal_of_string.
  rewrite (before_dot_digits s Hd), (after_dot_digits s Hd). simpl.
  by rewrite Hn.
Qed.

#[export] Instance decimal : PyFloat := {|
  float := Q;
  float_of_string := decimal_of_string;
  float_of_Z := inject_Z;
  float_leb := Qle_bool;
  float_truthy := fun x => negb (Qeq_bool x 0);
  float_of_string_empty := eq_refl;
  float_of_string_digits := decimal_of_string_digits;
  float_of_string_superscript := decimal_of_string_superscript
|}.

End DecimalFloat.

(** ** The document query layer (BeautifulSoup) *)

Module Bs4.

(** An element of the parsed document, by what the scraper can observe of
    it: its text strings in document order, its attributes, its markup
    ([str(tag)]), and the elements below it that a CSS query matches, in
    document order. *)
Inductive Node : Type := mkNode {
  node_strings : list string;
  node_attrs : gmap string string;
  node_html : string;
  node_select : string -> list Node
}.

(** [tag.get_text(strip=True)]: every string stripped, the empty ones
    skipped, the rest joined without a separator. *)
Definition get_text_strip (n : Node) : string :=
  String.concat EmptyString (strip <$> node_strings n).

(** [tag.get(attr)] *)
Definition get (n : Node) (attr : string) : option string :=
  node_attrs n !! attr.

(** [tag.get(attr, dflt)] *)
Definition get_default (n : Node) (attr dflt : string) : string :=
  default dflt (node_attrs n !! attr).

(** [bool(tag.get(attr))] *)
Definition attr_truthy (n : Node) (attr : string) : bool :=
  match get n attr with
  | Some s => str_truthy s
  | None => false
  end.

(** [tag.select(q)] and [tag.select_one(q)] *)
Definition select (n : Node) (q : string) : list Node := node_select n q.
Definition select_one (n : Node) (q : string) : option Node :=
  head (node_select n q).

(** A leaf element holding one text string. *)
Definition text_node (s : string) : Node :=
  mkNode [s] ∅ s (fun _ => []).

End Bs4.

Export Bs4.

(** ** models.py *)

Module Models.
Section Models.
Context `{PF : PyFloat}.

(** The entry of a pydantic [ValidationError] for [field], from the
    outcome of the checks of that field: the field name and the message of
    the exception that the check raised. *)
Definition field_errors {A} (field : string) (r : result A)
    : list (string * string) :=
  match r with
  | Ok _ => []
  | Raise e => [(field, exn_str e)]
  end.

(** *** ProductItem *)

Record ProductItem : Type := mkProductItem {
  item_name : string;
  item_price : option float;
  item_description : option string;
  item_category : option (list string);
  item_image : option string
}.

(** [@validator('name')] *)
Definition name_must_not_be_empty (v : string) : result string :=
  if negb (str_truthy (strip v))
  then Raise (ValueError "Product name cannot be empty")
  else Ok (strip v).

(** [ProductItem(name=.., price=.., description=.., category=.., image=..)] *)
Definition ProductItem_new (name : string) (price : option float)
    (description : option string) (category : option (list string))
    (image : option string) : result ProductItem :=
  match name_must_not_be_empty name with
  | Ok name' => Ok (mkProductItem name' price description category image)
  | Raise e => Raise (ValidationError "ProductItem" [("name", exn_str e)])
  end.

(** [product.dict()] *)
Definition ProductItem_dict (p : ProductItem) : gmap string pyval :=
  list_to_map
    [("name", VStr (item_name p));
     ("price", of_option VFloat (item_price p));
     ("description", of_option VStr (item_description p));
     ("category", of_option (fun l => VList (VStr <$> l)) (item_category p));
     ("image", of_option VStr (item_image p))].

(** *** MapLocation *)

Record MapLocation : Type := mkMapLocation {
  map_element : string;
  map_coordinates : option (gmap string pyval)
}.

(** [map_location.dict()] *)
Definition MapLocation_dict (m : MapLocation) : gmap string pyval :=
  list_to_map
    [("element", VStr (map_element m));
     ("coordinates", of_option VDict (map_coordinates m))].

(** *** ShopData *)

Record ShopData : Type := mkShopData {
  name : string;
  description : string;
  rating : float;
  reviews_count : option Z;
  verified : option bool;
  delivery_service : option bool;
  special_offers : option (list string);
  images : gmap string pyval;
  products : gmap string pyval;
  contact : option (gmap string pyval);
  location : gmap string pyval;
  metadata : gmap string pyval
}.

(** [Field(..., ge=0, le=5)] on [rating] *)
Definition check_rating (v : float) : result float :=
  if negb (float_leb (float_of_Z 0) v)
  then Raise (ValueError "ensure this value is greater than or equal to 0")
  else if negb (float_leb v (float_of_Z 5))
  then Raise (ValueError "ensure this value is less than or equal to 5")
  else Ok v.

(** [Field(None, ge=0)] on [reviews_count] *)
Definition check_reviews_count (v : option Z) : result (option Z) :=
  match v with
  | None => Ok None
  | Some z =>
      if negb (0 <=? z)
      then Raise (ValueError "ensure this value is greater than or equal to 0")
      else Ok (Some z)
  end.

(** [@validator('images')] *)
Definition validate_images (v : gmap string pyval)
    : result (gmap string pyval) :=
  if negb (dict_truthy v "main")
  then Raise (ValueError "Main image is required")
  else Ok v.

(** [@validator('products')] *)
Definition validate_products (v : gmap string pyval)
    : result (gmap string pyval) :=
  if negb (dict_truthy v "categories")
  then Raise (ValueError "At least one product category is required")
  else if negb (dict_truthy v "items")
  then Raise (ValueError "At least one product item is required")
  else Ok v.

(** [@validator('location')] *)
Definition validate_location (v : gmap string pyval)
    : result (gmap string pyval) :=
  if negb (dict_truthy v "area")
  then Raise (ValueError "Location area is required")
  else if negb (dict_truthy v "map")
  then Raise (ValueError "Location map is required")
  else Ok v.

(** The violations of a candidate record: every field is checked, in
    declaration order, and each failing field contributes its entry. *)
Definition ShopData_violations (d : ShopData) : list (string * string) :=
  field_errors "rating" (check_rating (rating d))
  ++ field_errors "reviews_count" (check_reviews_count (reviews_count d))
  ++ field_errors "images" (validate_images (images d))
  ++ field_errors "products" (validate_products (products d))
  ++ field_errors "location" (validate_location (location d)).

(** [ShopData(...)]: the record when there is no violation,
    [ValidationError] with all of them otherwise. *)
Definition ShopData_new (d : ShopData) : result ShopData :=
  match ShopData_violations d with
  | [] => Ok d
  | errs => Raise (ValidationError "ShopData" errs)
  end.

End Models.
End Models.

Export Models.

(** ** extraction.py *)

Module ShopExtractionStrategy.
Section Strategy.
Context `{PF : PyFloat}.

(** An entry of [raw_data]: the code reads some entries as a text
    ([.strip()]) and the others as the list of matched elements. *)
Inductive RawValue : Type :=
| RText (s : string)
| RNodes (l : list Node).

(** [bool(data.get(field))] *)
Definition raw_truthy (v : option RawValue) : bool :=
  match v with
  | None => false
  | Some (RText s) => str_truthy s
  | Some (RNodes l) => match l with [] => false | _ => true end
  end.

(** The selector table of [ShopExtractionStrategy.__init__]. *)
Definition selectors : gmap string string :=
  list_to_map
    [("name", "h1");
     ("description", "div[style*='white-space:pre-wrap']");
     ("rating", "div[style*='text-align:center'] img[alt='rating']");
     ("reviews.count", "div[style*='text-align:center'] div[style*='font-size:22px']");
     ("verified", "div[style*='color: rgb(74, 153, 233)']");
     ("status.delivery", "div[style*='color: rgb(74, 153, 233)']");
     ("special_offers", "div._Dispensary_medcardHeader___L6AM");
     ("images.main", "div.FeaturedImage_featuredImage__GA2Cw img[alt*='og.th']");
     ("images.gallery", "div.FeaturedImage_featuredImage__GA2Cw img[loading='eager']");
     ("products.categories", "h2.ShopProductAll_productsHeader__10hBt");
     ("products.items", "div.ShopProductAll_product__Cc_k7");
     ("products.item.name", "div.ShopProductAll_header__BSmhH a");
     ("products.item.price", "div.ShopProductAll_prices__pWISY");
     ("products.item.description", "div.ShopProductAll_description__ItGaW");
     ("products.item.category", "div.ShopProductAll_chips__jqQLw div div");
     ("products.item.image", "div.ShopProductAll_imageContainer__1TiEr img");
     ("contact.website", "div[style*='border:1px solid #04b14e'] svg[width='26'][height='26']");
     ("contact.line", "div[style*='border:1px solid #04b14e'] path[d*='M256 64C150']");
     ("location.area", "h2 a[href*='/cannabis/']");
     ("location.map", "div.layout_map__AFkLI")].

(** [self.selectors[field]] *)
Definition selector (field : string) : string :=
  default EmptyString (selectors !! field).

(** A document, by what the base strategy gives for a query on it:
    nothing, a text, or the matched elements. *)
Definition Document : Type := string -> option RawValue.

(** Modelled from the spec: [super().extract(html)] is the base strategy
    of the crawl4ai library, which is not part of the repository.  After
    the data flow of the specification (document, query layer, selector
    lookups, coercion) and the way [extract] reads [raw_data], its result
    is a dict keyed by the field names of the selector table, the entry of
    a field being what its selector gives on the document. *)
Definition super_extract (doc : Document) : gmap string RawValue :=
  omap doc selectors.

(** [v[0].get(attr, dflt)] *)
Definition first_get (v : RawValue) (attr dflt : string) : result string :=
  match v with
  | RNodes (n :: _) => Ok (get_default n attr dflt)
  | RNodes [] => Raise (IndexError "list index out of range")
  | RText (String _ _) => Raise (AttributeError "'str' object has no attribute 'get'")
  | RText EmptyString => Raise (IndexError "string index out of range")
  end.

(** [v[0].get_text(strip=True)] *)
Definition first_get_text (v : RawValue) : result string :=
  match v with
  | RNodes (n :: _) => Ok (get_text_strip n)
  | RNodes [] => Raise (IndexError "list index out of range")
  | RText (String _ _) =>
      Raise (AttributeError "'str' object has no attribute 'get_text'")
  | RText EmptyString => Raise (IndexError "string index out of range")
  end.

(** [l[0]] *)
Definition index0 {A} (l : list A) : result A :=
  match l with
  | x :: _ => Ok x
  | [] => Raise (IndexError "list index out of range")
  end.

Definition optional_text_fields : list string :=
  ["reviews.count"; "verified"; "status.delivery"; "special_offers"].

(** [_get_text] (lines 98-103) *)
Definition _get_text (data : gmap string RawValue) (field : string)
    : result string :=
  value ← match data !! field with
          | None => Ok (strip EmptyString)
          | Some (RText s) => Ok (strip s)
          | Some (RNodes _) =>
              Raise (AttributeError "'list' object has no attribute 'strip'")
          end;
  if negb (str_truthy value) && negb (bool_decide (field ∈ optional_text_fields))
  then Raise (ValueError ("Required field '" ++ field ++ "' is missing"))
  else Ok value.

(** [_get_image_url] (lines 105-109) *)
Definition _get_image_url (data : gmap string RawValue) (field : string)
    : result string :=
  match data !! field with
  | None => Raise (ValueError ("Required image field '" ++ field ++ "' is missing"))
  | Some v =>
      if negb (raw_truthy (Some v))
      then Raise (ValueError ("Required image field '" ++ field ++ "' is missing"))
      else match v with
           | RNodes _ => first_get v "src" EmptyString
           | RText _ => Ok EmptyString
           end
  end.

(** [_get_gallery_urls] (lines 111-113) *)
Definition _get_gallery_urls (gallery_data : RawValue) : result (list string) :=
  match gallery_data with
  | RNodes l =>
      Ok (omap (fun img => if attr_truthy img "src"
                           then Some (get_default img "src" EmptyString)
                           else None) l)
  | RText EmptyString => Ok []
  | RText (String _ _) =>
      Raise (AttributeError "'str' object has no attribute 'get'")
  end.

(** [_parse_rating] (lines 115-124) *)
Definition _parse_rating (rating_data : option RawValue) : result float :=
  match rating_data with
  | Some v =>
      if negb (raw_truthy (Some v))
      then Raise (ValueError "Rating is required")
      else try_except
             (alt ← first_get v "alt" "0";
              tok ← index0 (split alt);
              py_float tok)
             (fun e => is_IndexError e || is_ValueError e)
             (Ok (float_of_Z 0))
  | None => Raise (ValueError "Rating is required")
  end.

(** [_parse_reviews_count] (lines 126-135) *)
Definition _parse_reviews_count (reviews_data : option RawValue)
    : result (option Z) :=
  match reviews_data with
  | Some v =>
      if negb (raw_truthy (Some v))
      then Ok None
      else try_except
             (text ← first_get_text v;
              n ← py_int (filter_chars isdigit text);
              Ok (Some n))
             (fun e => is_ValueError e || is_AttributeError e)
             (Ok None)
  | None => Ok None
  end.

(** [_parse_special_offers] (lines 137-141) *)
Definition _parse_special_offers (offers_data : option RawValue)
    : result (list string) :=
  match offers_data with
  | Some v =>
      if negb (raw_truthy (Some v))
      then Ok []
      else match v with
           | RNodes l =>
               Ok (omap (fun offer => if str_truthy (get_text_strip offer)
                                      then Some (get_text_strip offer)
                                      else None) l)
           | RText _ =>
               Raise (AttributeError "'str' object has no attribute 'get_text'")
           end
  | None => Ok []
  end.

(** [_parse_price] (lines 206-215); an element is always true. *)
Definition _parse_price (price_element : option Node) : result (option float) :=
  match price_element with
  | None => Ok None
  | Some el =>
      try_except
        (x ← py_float (filter_chars isdigit (get_text_strip el));
         Ok (Some x))
        (fun e => is_ValueError e || is_AttributeError e)
        (Ok None)
  end.

(** The body of the loop of [_process_products]: the [ProductItem] of one
    product container, as a dict.  The keyword arguments are evaluated in
    order; [.get_text] on a missing name element is an [AttributeError]. *)
Definition product_of_container (item : Node) : result (gmap string pyval) :=
  name ← match select_one item (selector "products.item.name") with
         | Some n => Ok (get_text_strip n)
         | None =>
             Raise (AttributeError "'NoneType' object has no attribute 'get_text'")
         end;
  price ← _parse_price (select_one item (selector "products.item.price"));
  let description :=
    get_text_strip <$> select_one item (selector "products.item.description") in
  let category :=
    get_text_strip <$> select item (selector "products.item.category") in
  let image :=
    select_one item (selector "products.item.image") ≫= fun n => get n "src" in
  product ← ProductItem_new name price description (Some category) image;
  Ok (ProductItem_dict product).

(** [_process_products] (lines 143-169) *)
Definition _process_products (data : gmap string RawValue)
    : result (gmap string pyval) :=
  categories ← match data !! "products.categories" with
               | None => Ok []
               | Some (RNodes l) => Ok (get_text_strip <$> l)
               | Some (RText EmptyString) => Ok []
               | Some (RText (String _ _)) =>
                   Raise (AttributeError "'str' object has no attribute 'get_text'")
               end;
  items ← match data !! "products.items" with
          | None => Ok []
          | Some (RNodes l) => for_each product_of_container l
          | Some (RText EmptyString) => Ok []
          | Some (RText (String _ _)) =>
              Raise (AttributeError "'str' object has no attribute 'select_one'")
          end;
  Ok (list_to_map [("categories", VList (VStr <$> categories));
                   ("items", VList (VDict <$> items))]).

(** [data[field][0].get("href", '')] when [field in data and data[field]] *)
Definition contact_entry (data : gmap string RawValue) (field : string)
    : result (option string) :=
  match data !! field with
  | Some v =>
      if raw_truthy (Some v)
      then href ← first_get v "href" EmptyString; Ok (Some href)
      else Ok None
  | None => Ok None
  end.

(** [_process_contact] (lines 171-181) *)
Definition _process_contact (data : gmap string RawValue)
    : result (option (gmap string pyval)) :=
  website ← contact_entry data "contact.website";
  line ← contact_entry data "contact.line";
  let contact : gmap string pyval :=
    (match line with Some l => <["line" := VStr l]> | None => id end)
      ((match website with Some w => <["website" := VStr w]> | None => id end) ∅) in
  Ok (if dict_nonempty contact then Some contact else None).

(** [float(e.get(attr)) if e.get(attr) else None] *)
Definition float_attr (e : Node) (attr : string) : result pyval :=
  match get e attr with
  | Some s => if str_truthy s then x ← py_float s; Ok (VFloat x) else Ok VNone
  | None => Ok VNone
  end.

(** [_process_map] (lines 191-204); [soup] is not used. *)
Definition _process_map (map_data : RawValue) (soup : Document)
    : result (gmap string pyval) :=
  if negb (raw_truthy (Some map_data))
  then Raise (ValueError "Map element is required")
  else match map_data with
       | RNodes (map_element :: _) =>
           coordinates ←
             (if attr_truthy map_element "data-lat"
                 && attr_truthy map_element "data-lng"
              then lat ← float_attr map_element "data-lat";
                   lng ← float_attr map_element "data-lng";
                   Ok (Some (list_to_map [("lat", lat); ("lng", lng)]))
              else Ok None);
           Ok (MapLocation_dict (mkMapLocation (node_html map_element) coordinates))
       | RNodes [] => Raise (IndexError "list index out of range")
       | RText _ => Raise (AttributeError "'str' object has no attribute 'get'")
       end.

(** [_process_location] (lines 183-189) *)
Definition _process_location (data : gmap string RawValue) (soup : Document)
    : result (gmap string pyval) :=
  area ← _get_text data "location.area";
  map ← _process_map (default (RNodes []) (data !! "location.map")) soup;
  Ok (list_to_map [("area", VStr area); ("map", VDict map)]).

(** [extract] (lines 48-96) after the call of the base class: [shop_data]
    is built field by field, in the order of the dict display, then
    validated; the validated model is returned (as the record, not as its
    [.dict()]).  The [except] clause logs and re-raises. *)
Definition extract_from (raw_data : gmap string RawValue) (soup : Document)
    : result ShopData :=
  let missing_optional_fields : list string := [] in
  name ← _get_text raw_data "name";
  description ← _get_text raw_data "description";
  rating ← _parse_rating (raw_data !! "rating");
  reviews_count ← _parse_reviews_count (raw_data !! "reviews.count");
  let verified := raw_truthy (raw_data !! "verified") in
  let delivery_service := raw_truthy (raw_data !! "status.delivery") in
  special_offers ← _parse_special_offers (raw_data !! "special_offers");
  main ← _get_image_url raw_data "images.main";
  gallery ← _get_gallery_urls (default (RNodes []) (raw_data !! "images.gallery"));
  products ← _process_products raw_data;
  contact ← _process_contact raw_data;
  location ← _process_location raw_data soup;
  ShopData_new
    (mkShopData name description rating reviews_count
       (Some verified) (Some delivery_service) (Some special_offers)
       (list_to_map [("main", VStr main); ("gallery", VList (VStr <$> gallery))])
       products contact location
       (list_to_map
          [("missing_optional_fields", VList (VStr <$> missing_optional_fields));
           ("validation_errors", VList [])])).

Definition extract (doc : Document) : result ShopData :=
  extract_from (super_extract doc) doc.

End Strategy.
End ShopExtractionStrategy.

Export ShopExtractionStrategy.

(** ** verify_selectors.py: the diagnostic harness *)

Module VerifySelectors.

(** The parsed document of the harness: its markup ([str(soup)]) and
    [soup.select]. *)
Record Soup : Type := mkSoup {
  soup_html : string;
  soup_select : string -> list Node
}.

(** One entry of [samples]: [text], [attributes] and, for the entries
    added by the loop, [html]. *)
Record Sample : Type := mkSample {
  sample_text : string;
  sample_attributes : gmap string (option string);
  sample_html : option string
}.

(** An entry of [SELECTORS_TO_TEST]. *)
Record SelectorConfig : Type := mkSelectorConfig {
  cfg_selector : string;
  cfg_required : bool;
  cfg_validation : option (Node -> result bool);
  cfg_extract : option (option Node -> option (gmap string (option string)));
  cfg_error_msg : option string;
  cfg_warning_msg : option string
}.

Record SelectorValidationResult : Type := mkSelectorValidationResult {
  found : bool;
  count : nat;
  samples : list Sample;
  is_required : bool;
  validation_errors : list string;
  validation_warnings : list string;
  extracted_value : option (gmap string (option string));
  html_context : option string
}.

(** [get_text_safely] on an element. *)
Definition get_text_safely (element : Node) : string := get_text_strip element.

(** [get_html_context] (lines 296-323) *)
Definition get_html_context (soup : Soup) (element : Node) : string :=
  let element_html := node_html element in
  let full_html := soup_html soup in
  match String.index 0 element_html full_html with
  | None => element_html
  | Some pos =>
      let start := Nat.max 0 (pos - 200) in
      let end_ :=
        Nat.min (String.length full_html)
                (pos + String.length element_html + 200) in
      let context := String.substring start (end_ - start) full_html in
      let context := if (0 <? start)%nat then "..." ++ context else context in
      if (end_ <? String.length full_html)%nat then context ++ "..." else context
  end.

(** The sample that the loop of [validate_selector] builds for [elem]. *)
Definition loop_sample (section field : string) (elem : Node) : Sample :=
  if String.eqb section "location" && String.eqb field "coordinates" then
    mkSample
      ("lat: " ++ get_default elem "data-lat" "N/A"
       ++ ", lng: " ++ get_default elem "data-lng" "N/A")
      (list_to_map [("lat", get elem "data-lat"); ("lng", get elem "data-lng")])
      (Some (node_html elem))
  else if String.eqb section "location" && String.eqb field "google_maps_link" then
    let href := get_default elem "href" EmptyString in
    mkSample href (list_to_map [("href", Some href)]) (Some (node_html elem))
  else
    mkSample (get_text_safely elem) (Some <$> node_attrs elem)
             (Some (node_html elem)).

(** One turn of the loop: the sample is appended, and the context is set
    while it is still unset or empty. *)
Definition loop_step (soup : Soup) (section field : string)
    (r : SelectorValidationResult) (elem : Node) : SelectorValidationResult :=
  let samples' := (samples r ++ [loop_sample section field elem])%list in
  let context' :=
    match html_context r with
    | Some (String c s) => Some (String c s)
    | _ => Some (get_html_context soup elem)
    end in
  mkSelectorValidationResult (found r) (count r) samples' (is_required r)
    (validation_errors r) (validation_warnings r) (extracted_value r) context'.

(** The last block: the field's predicate, when it has one and something
    matched, on the first element. *)
Definition run_validation (config : SelectorConfig) (elements : list Node)
    (r : SelectorValidationResult) : SelectorValidationResult :=
  match cfg_validation config, elements with
  | Some validation, first :: _ =>
      match validation first with
      | Ok true => r
      | Ok false =>
          let message :=
            default "Validation failed"
              (if cfg_required config then cfg_error_msg config
               else cfg_warning_msg config) in
          if cfg_required config
          then mkSelectorValidationResult (found r) (count r) (samples r)
                 (is_required r) (validation_errors r ++ [message])%list
                 (validation_warnings r) (extracted_value r) (html_context r)
          else mkSelectorValidationResult (found r) (count r) (samples r)
                 (is_required r) (validation_errors r)
                 (validation_warnings r ++ [message])%list (extracted_value r)
                 (html_context r)
      | Raise e =>
          mkSelectorValidationResult (found r) (count r) (samples r)
            (is_required r)
            (validation_errors r ++ [("Validation error: " ++ exn_str e)%string])%list
            (validation_warnings r) (extracted_value r) (html_context r)
      end
  | _, _ => r
  end.

(** [validate_selector] (lines 325-393).  Nothing in the body of the
    loop raises on an element, so its [except] branch is left out. *)
Definition validate_selector (soup : Soup) (section field : string)
    (config : SelectorConfig) : SelectorValidationResult :=
  let selector := cfg_selector config in
  let is_required := cfg_required config in
  let elements := soup_select soup selector in
  let result :=
    mkSelectorValidationResult
      (0 <? length elements)%nat
      (length elements)
      ((fun e => mkSample (get_text_safely e) (Some <$> node_attrs e) None)
         <$> take 3 elements)
      is_required [] [] None None in
  let result :=
    match cfg_extract config with
    | Some extract =>
        mkSelectorValidationResult (found result) (count result)
          (samples result) (VerifySelectors.is_required result)
          (validation_errors result) (validation_warnings result)
          (extract (head elements)) (html_context result)
    | None => result
    end in
  let result := foldl (loop_step soup section field) result (take 3 elements) in
  run_validation config elements result.

End VerifySelectors.

(** ** Notions used to state the properties *)

Module Notions.
Section Notions.
Context `{PF : PyFloat}.

(** A product container has a usable name: its name query matches and the
    text of the first match is not empty once trimmed. *)
Definition has_name (item : Node) : bool :=
  match select_one item (selector "products.item.name") with
  | Some n => str_truthy (strip (get_text_strip n))
  | None => false
  end.

(** The [ProductItem] dict of a container that has a usable name. *)
Definition container_item (item : Node) : gmap string pyval :=
  ProductItem_dict
    (mkProductItem
       (strip (default EmptyString
                 (get_text_strip <$> select_one item (selector "products.item.name"))))
       (select_one item (selector "products.item.price")
          ≫= fun el => float_of_string (filter_chars isdigit (get_text_strip el)))
       (get_text_strip <$> select_one item (selector "products.item.description"))
       (Some (get_text_strip <$> select item (selector "products.item.category")))
       (select_one item (selector "products.item.image") ≫= fun n => get n "src")).

End Notions.

(** The maximal runs of digit characters of a text, in order.  [cur] is
    the run being read, reversed. *)
Fixpoint digit_runs_go (cur : list ascii) (s : string) : list string :=
  let flush (k : list string) :=
    match cur with
    | [] => k
    | _ => string_of_list_ascii (rev cur) :: k
    end in
  match s with
  | EmptyString => flush []
  | String c s' =>
      if isdigit c then digit_runs_go (c :: cur) s' else flush (digit_runs_go [] s')
  end.

Definition digit_runs (s : string) : list string := digit_runs_go [] s.

(** The longest run of digit characters of a text (the first one among
    the longest), empty when the text has no digit: the reading of
    "number from text" that the specification words. *)
Definition longest_digit_run (s : string) : string :=
  fold_left
    (fun best run =>
       if (String.length best <? String.length run)%nat then run else best)
    (digit_runs s) EmptyString.

(** [needle in hay] *)
Definition contains (needle hay : string) : bool :=
  match String.index 0 needle hay with
  | Some _ => true
  | None => false
  end.

(** The field paths of the selector table. *)
Definition field_paths : list string := (map_to_list selectors).*1.

(** A message names no field path of the schema. *)
Definition names_no_field (msg : string) : bool :=
  forallb (fun f => negb (contains f msg)) field_paths.

End Notions.

Export Notions.

(** ** Sample documents *)

Module Samples.
Import DecimalFloat.

(** Dispatch of a query over a table of answers. *)
Fixpoint answer {A} (table : list (string * A)) (q : string) : option A :=
  match table with
  | [] => None
  | (k, a) :: table' => if String.eqb q k then Some a else answer table' q
  end.

Definition element (strings : list string) (attrs : list (string * string))
    (html : string) (below : list (string * list Node)) : Node :=
  mkNode strings (list_to_map attrs) html
         (fun q => default [] (answer below q)).

(** A product container with the given name, price and category
    elements. *)
Definition container (names prices categories : list string) : Node :=
  element [] [] "<div class='ShopProductAll_product__Cc_k7'>"
    [(selector "products.item.name", text_node <$> names);
     (selector "products.item.price", text_node <$> prices);
     (selector "products.item.category", text_node <$> categories)].

Definition rating_img : Node :=
  element [] [("alt", "rating"); ("src", "/stars.svg")] "<img alt='rating'>" [].

Definition main_img : Node :=
  element [] [("alt", "shop og.th"); ("src", "https://og.th/shop.jpg")]
    "<img alt='shop og.th'>" [].

Definition map_div (attrs : list (string * string)) : Node :=
  element [] attrs "<div class='layout_map__AFkLI'>" [].

Definition bangkok_map : Node :=
  map_div [("data-lat", "13.7563"); ("data-lng", "100.5018")].

(** A complete shop page: one product, no reviews count, no badge, no
    offers, no contact. *)
Definition shop_page : list (string * RawValue) :=
  [(selector "name", RText "Green House");
   (selector "description", RText " A shop. ");
   (selector "rating", RNodes [rating_img]);
   (selector "images.main", RNodes [main_img]);
   (selector "products.categories", RNodes [text_node "Flowers"]);
   (selector "products.items", RNodes [container ["Blue Dream"] ["$1200"] []]);
   (selector "location.area", RText "Bangkok");
   (selector "location.map", RNodes [bangkok_map])].

Definition document (page : list (string * RawValue)) : Document := answer page.

(** The page without the entries of the given selectors. *)
Definition without (fields : list string) (page : list (string * RawValue))
    : list (string * RawValue) :=
  List.filter (fun kv => negb (bool_decide (kv.1 ∈ selector <$> fields))) page.

(** Product containers: two complete ones, one without name element and
    one with a blank name. *)
Definition blue_dream : Node := container ["Blue Dream"] ["$1200"] [].
Definition nameless : Node := container [] ["$900"] ["Sativa"].
Definition blank_name : Node := container ["   "] ["$900"] ["Sativa"].
Definition og_kush : Node := container ["OG Kush"] [] ["Indica"].

(** A map element whose latitude is written with a decimal comma. *)
Definition comma_map : Node :=
  map_div [("data-lat", "13,7563"); ("data-lng", "100.5018")].

(** Three matched elements with the texts ["  "], ["A"] and the empty
    text. *)
Definition three_texts : list Node := [text_node "  "; text_node "A"; text_node EmptyString].

(** The text of a 5 followed by SUPERSCRIPT TWO (U+00B2). *)
Definition five_squared : string := String "5" (String "178" EmptyString).

(** The record of the complete page. *)
Definition shop_page_record : ShopData :=
  mkShopData "Green House" "A shop." 0%Q None (Some false) (Some false) (Some [])
    (list_to_map [("main", VStr "https://og.th/shop.jpg"); ("gallery", VList [])])
    (list_to_map
       [("categories", VList [VStr "Flowers"]);
        ("items",
         VList [VDict (list_to_map
                         [("name", VStr "Blue Dream");
                          ("price", VFloat (1200 # 1));
                          ("description", VNone);
                          ("category", VList []);
                          ("image", VNone)])])])
    None
    (list_to_map
       [("area", VStr "Bangkok");
        ("map",
         VDict (list_to_map
                  [("element", VStr "<div class='layout_map__AFkLI'>");
                   ("coordinates",
                    VDict (list_to_map [("lat", VFloat (137563 # 10000));
                                        ("lng", VFloat (1005018 # 10000))]))]))])
    (list_to_map [("missing_optional_fields", VList []);
                  ("validation_errors", VList [])]).

(** A record that passes the model. *)
Definition shop_record : ShopData :=
  mkShopData "Green House" "A shop." (45 # 10) (Some 12) (Some true) (Some true)
    (Some [])
    (list_to_map [("main", VStr "https://og.th/shop.jpg"); ("gallery", VList [])])
    (list_to_map [("categories", VList [VStr "Flowers"]);
                  ("items", VList [VDict (container_item blue_dream)])])
    None
    (list_to_map [("area", VStr "Bangkok");
                  ("map", VDict (MapLocation_dict (mkMapLocation "<div>" None)))])
    ∅.

End Samples.

(** ** Further notions *)

Module MoreNotions.

(** An entry of [raw_data] that is absent or a list of matched elements. *)
Definition nodes_or_absent (v : option RawValue) : Prop :=
  v = None \/ exists l, v = Some (RNodes l).

(** The exceptions of the coercions: a [ValueError] or an
    [AttributeError], or the name error of [ProductItem]. *)
Definition coercion_error (e : exn) : Prop :=
  (exists msg, e = ValueError msg)
  \/ (exists msg, e = AttributeError msg)
  \/ e = ValidationError "ProductItem" [("name", "Product name cannot be empty")].

Section MoreNotions.
Context `{PF : PyFloat}.

(** The [href] of the first matched element of an entry, as a value:
    the empty text when the element has no [href]; nothing when nothing
    matched. *)
Definition first_href (v : option RawValue) : option pyval :=
  match v with
  | Some (RNodes (n :: _)) => Some (VStr (get_default n "href" EmptyString))
  | _ => None
  end.

End MoreNotions.
End MoreNotions.

Export MoreNotions.

(** ** verify_selectors.py: helpers, selector table and report *)

Module VerifyReport.
Import VerifySelectors.

(** What the safe helpers are called with: nothing, an element, a list of
    elements (a result set), or a text. *)
Inductive Element : Type :=
| ENone
| ETag (n : Node)
| EList (l : list Node)
| EStr (s : string).

(** [bool(element)]; an element is always true. *)
Definition element_truthy (element : Element) : bool :=
  match element with
  | ENone => false
  | ETag _ => true
  | EList l => match l with [] => false | _ => true end
  | EStr s => str_truthy s
  end.

(** [get_text_safely] (lines 82-91); a text has no [get_text], so the
    [except] branch gives [str(element)]. *)
Definition get_text_safely (element : Element) : string :=
  if negb (element_truthy element) then EmptyString
  else match element with
       | EList l =>
           match l with
           | first :: _ => get_text_strip first
           | [] => EmptyString
           end
       | ETag n => get_text_strip n
       | EStr s => s
       | ENone => EmptyString
       end.

(** [get_attr_safely] (lines 93-102) *)
Definition get_attr_safely (element : Element) (attr : string) : string :=
  if negb (element_truthy element) then EmptyString
  else match element with
       | EList l =>
           match l with
           | first :: _ => get_default first attr EmptyString
           | [] => EmptyString
           end
       | ETag n => get_default n attr EmptyString
       | EStr _ => EmptyString
       | ENone => EmptyString
       end.

(** [get_first_element] (lines 104-110) *)
Definition get_first_element (elements : Element) : Element :=
  if negb (element_truthy elements) then ENone
  else match elements with
       | EList l =>
           match l with
           | first :: _ => ETag first
           | [] => ENone
           end
       | other => other
       end.

(** [tag.get_text()] *)
Definition get_text (n : Node) : string :=
  String.concat EmptyString (node_strings n).

(** [any(c.isdigit() for c in s)] *)
Fixpoint any_digit (s : string) : bool :=
  match s with
  | EmptyString => false
  | String c s' => isdigit c || any_digit s'
  end.

(** [c.lower()]: the letters A to Z, and U+00C0 to U+00DE without the
    multiplication sign U+00D7. *)
Definition lower_char (c : ascii) : ascii :=
  let n := nat_of_ascii c in
  if ((65 <=? n)%nat && (n <=? 90)%nat)
     || ((192 <=? n)%nat && (n <=? 222)%nat && negb (n =? 215)%nat)
  then ascii_of_nat (n + 32) else c.

Fixpoint lower (s : string) : string :=
  match s with
  | EmptyString => EmptyString
  | String c s' => String (lower_char c) (lower s')
  end.

(** [needle in hay] *)
Definition str_in (needle hay : string) : bool :=
  match String.index 0 needle hay with
  | Some _ => true
  | None => false
  end.

(** An entry without predicate: selector and flag only. *)
Definition plain (selector : string) (required : bool) : SelectorConfig :=
  mkSelectorConfig selector required None None None None.

(** A required entry with its predicate and error message. *)
Definition required_entry (selector : string) (validation : Node -> bool)
    (error_msg : string) : SelectorConfig :=
  mkSelectorConfig selector true (Some (fun x => Ok (validation x))) None
                   (Some error_msg) None.

(** An optional entry with its predicate and warning message. *)
Definition optional_entry (selector : string) (validation : Node -> bool)
    (warning_msg : string) : SelectorConfig :=
  mkSelectorConfig selector false (Some (fun x => Ok (validation x))) None
                   None (Some warning_msg).

(** [bool(get_text_safely(get_first_element(x)))] *)
Definition has_text (x : Node) : bool :=
  str_truthy (get_text_safely (get_first_element (ETag x))).

(** [bool(x and any(c.isdigit() for c in get_text_safely(get_first_element(x))))] *)
Definition has_digit (x : Node) : bool :=
  element_truthy (ETag x)
  && any_digit (get_text_safely (get_first_element (ETag x))).

(** [SELECTORS_TO_TEST] (lines 113-256): the sections in order, each with
    its fields in order.  The predicates are applied to the first matched
    element, which is not a list: the list tests of the gallery and items
    predicates take their element branch. *)
Definition SELECTORS_TO_TEST : list (string * list (string * SelectorConfig)) :=
  [("basic",
    [("name", required_entry "h1" has_text "Shop name must not be empty");
     ("description",
      required_entry "div[style*='white-space:pre-wrap']" has_text
        "Description must not be empty");
     ("rating",
      required_entry "div[style*='text-align:center'] img[alt='rating']"
        (fun x => str_truthy (get_attr_safely (get_first_element (ETag x)) "alt"))
        "Rating must have alt text");
     ("reviews.count",
      optional_entry "div[style*='text-align:center'] div[style*='font-size:22px']"
        has_digit "Reviews count should contain numbers");
     ("verified", plain "div[style*='color: rgb(74, 153, 233)']" false);
     ("status.delivery", plain "div[style*='color: rgb(74, 153, 233)']" false);
     ("special_offers", plain "div._Dispensary_medcardHeader___L6AM" false)]);
   ("images",
    [("main",
      required_entry "div.FeaturedImage_featuredImage__GA2Cw img[alt*='og.th']"
        (fun x => str_truthy (get_attr_safely (get_first_element (ETag x)) "src"))
        "Main image must have src attribute");
     ("gallery",
      optional_entry "div.FeaturedImage_featuredImage__GA2Cw img[loading='eager']"
        (fun x => forallb (fun img => str_truthy (get_attr_safely (ETag img) "src")) [x])
        "Gallery images should have src attributes")]);
   ("products",
    [("categories",
      required_entry "h2.ShopProductAll_productsHeader__10hBt" has_text
        "At least one product category is required");
     ("items",
      required_entry "div.ShopProductAll_product__Cc_k7"
        (fun x => element_truthy (ETag x) && true)
        "At least one product item is required");
     ("item.name",
      required_entry "div.ShopProductAll_header__BSmhH a" has_text
        "Product name must not be empty");
     ("item.price",
      optional_entry "div.ShopProductAll_prices__pWISY" has_digit
        "Price should contain numbers");
     ("item.description", plain "div.ShopProductAll_description__ItGaW" false);
     ("item.category", plain "div.ShopProductAll_chips__jqQLw div div" false);
     ("item.image",
      optional_entry "div.ShopProductAll_imageContainer__1TiEr img"
        (fun x => element_truthy (ETag x) && attr_truthy x "src")
        "Product image should have src attribute")]);
   ("contact",
    [("website",
      plain "div[style*='border:1px solid #04b14e'] svg[width='26'][height='26']" false);
     ("line",
      plain "div[style*='border:1px solid #04b14e'] path[d*='M256 64C150']" false)]);
   ("location",
    [("area",
      required_entry "h2 a[href*='/cannabis/']"
        (fun x => element_truthy (ETag x) && str_truthy (strip (get_text x)))
        "Area must not be empty");
     ("coordinates",
      mkSelectorConfig "div.layout_map__AFkLI" true
        (Some (fun x => Ok (element_truthy (ETag x)
                            && attr_truthy x "data-lng" && attr_truthy x "data-lat")))
        (Some (fun x => match x with
                        | Some e => Some (list_to_map [("lng", get e "data-lng");
                                                       ("lat", get e "data-lat")])
                        | None => None
                        end))
        (Some "Map coordinates not found in data attributes") None);
     ("map_provider",
      required_entry "div.layout_map__AFkLI"
        (fun x => str_in "mapbox" (lower (node_html x)))
        "Map provider should be Mapbox");
     ("place_name",
      required_entry "h1" (fun x => str_truthy (get_text_safely (ETag x)))
        "Shop name is required");
     ("map",
      required_entry "div.layout_map__AFkLI" (fun x => element_truthy (ETag x))
        "Map element is required")])].

(** The accumulators of the second half of [verify_selectors]. *)
Record Tally : Type := mkTally {
  t_missing_required : list string;
  t_optional_present : nat;
  t_total_optional : nat;
  t_validation_errors : list string;
  t_validation_warnings : list string
}.

(** One turn of the inner loop of "Process results" (lines 472-483). *)
Definition tally_field (section : string) (t : Tally)
    (entry : string * SelectorValidationResult) : Tally :=
  let (field, result) := entry in
  if is_required result then
    if negb (found result)
       || match validation_errors result with [] => false | _ => true end
    then mkTally (t_missing_required t ++ [(section ++ "." ++ field)%string])%list
                 (t_optional_present t) (t_total_optional t)
                 (t_validation_errors t ++ validation_errors result)%list
                 (t_validation_warnings t)
    else t
  else
    let present :=
      if found result
         && match validation_warnings result with [] => true | _ => false end
      then S (t_optional_present t) else t_optional_present t in
    mkTally (t_missing_required t) present (S (t_total_optional t))
            (t_validation_errors t)
            (match validation_warnings result with
             | [] => t_validation_warnings t
             | ws => (t_validation_warnings t ++ ws)%list
             end).

(** The two nested loops over [results]. *)
Definition process_results
    (results : list (string * list (string * SelectorValidationResult)))
    (t : Tally) : Tally :=
  fold_left (fun t (sf : string * list (string * SelectorValidationResult)) =>
               fold_left (tally_field sf.1) sf.2 t)
            results t.

Record ValidationReport : Type := mkValidationReport {
  url : string;
  results : list (string * list (string * SelectorValidationResult));
  missing_required : list string;
  optional_present : nat;
  total_optional : nat;
  report_validation_errors : list string;
  report_validation_warnings : list string;
  html_saved : bool;
  html_path : option string
}.

(** The query [a[href*=...]] with the text between double quotes. *)
Definition href_contains (part : string) : string :=
  "a[href*=" ++ String "034" EmptyString ++ part ++ String "034" EmptyString ++ "]".

(** The warning of the search for map links (lines 419-437): none when a
    link of one of the two forms is found. *)
Definition map_links_warning (soup : Soup) : list string :=
  match soup_select soup (href_contains "maps.app.goo.gl") with
  | _ :: _ => []
  | [] =>
      match soup_select soup (href_contains "goo.gl/maps") with
      | _ :: _ => []
      | [] => ["No Google Maps links found"]
      end
  end.

(** The loop "Validate selectors" (lines 461-465) over a table. *)
Definition validate_section (soup : Soup) (section : string)
    (fields : list (string * SelectorConfig))
    : list (string * SelectorValidationResult) :=
  List.map (fun fc : string * SelectorConfig =>
              (fc.1, validate_selector soup section fc.1 fc.2)) fields.

Definition validate_all (soup : Soup)
    (table : list (string * list (string * SelectorConfig)))
    : list (string * list (string * SelectorValidationResult)) :=
  List.map (fun sf : string * list (string * SelectorConfig) =>
              (sf.1, validate_section soup sf.1 sf.2)) table.

(** [verify_selectors] (lines 395-495) from the parsed page on: the crawl
    and the console output are left out, the table is [SELECTORS_TO_TEST]
    in the program. *)
Definition verify_selectors_with
    (table : list (string * list (string * SelectorConfig)))
    (url : string) (soup : Soup) : ValidationReport :=
  let results := validate_all soup table in
  let t := process_results results (mkTally [] 0 0 [] (map_links_warning soup)) in
  mkValidationReport url results (t_missing_required t) (t_optional_present t)
    (t_total_optional t) (t_validation_errors t) (t_validation_warnings t)
    true (Some "(path not changed in this example)").

Definition verify_selectors_from (url : string) (soup : Soup) : ValidationReport :=
  verify_selectors_with SELECTORS_TO_TEST url soup.

End VerifyReport.

(** ** Notions used to state the properties of the report *)

Module ReportNotions.
Import VerifySelectors VerifyReport.

(** The results of a run as one list of (section, field, result), in the
    order of the loops. *)
Definition flat_results
    (results : list (string * list (string * SelectorValidationResult)))
    : list (string * string * SelectorValidationResult) :=
  List.concat
    (List.map (fun sf : string * list (string * SelectorValidationResult) =>
                 List.map (fun fr : string * SelectorValidationResult =>
                             (sf.1, fr.1, fr.2)) sf.2)
              results).

(** The entries of a table as one list of (section, field, config). *)
Definition flat_table (table : list (string * list (string * SelectorConfig)))
    : list (string * string * SelectorConfig) :=
  List.concat
    (List.map (fun sf : string * list (string * SelectorConfig) =>
                 List.map (fun fc : string * SelectorConfig =>
                             (sf.1, fc.1, fc.2)) sf.2)
              table).

(** The name of an entry in the report: section, dot, field. *)
Definition entry_name {A} (e : string * string * A) : string :=
  e.1.1 ++ "." ++ e.1.2.

(** A required field that was not found or has a validation error. *)
Definition is_missing (r : SelectorValidationResult) : bool :=
  is_required r
  && (negb (found r) || match validation_errors r with [] => false | _ => true end).

(** An optional field that was found and has no warning. *)
Definition is_present (r : SelectorValidationResult) : bool :=
  negb (is_required r) && found r
  && match validation_warnings r with [] => true | _ => false end.

(** The result before the validation block. *)
Definition sampled (soup : Soup) (section field : string) (config : SelectorConfig)
    : SelectorValidationResult :=
  let elements := soup_select soup (cfg_selector config) in
  foldl (loop_step soup section field)
    (match cfg_extract config with
     | Some extract =>
         mkSelectorValidationResult (0 <? length elements)%nat (length elements)
           ((fun e => mkSample (VerifySelectors.get_text_safely e)
                               (Some <$> node_attrs e) None) <$> take 3 elements)
           (cfg_required config) [] [] (extract (head elements)) None
     | None =>
         mkSelectorValidationResult (0 <? length elements)%nat (length elements)
           ((fun e => mkSample (VerifySelectors.get_text_safely e)
                               (Some <$> node_attrs e) None) <$> take 3 elements)
           (cfg_required config) [] [] None None
     end)
    (take 3 elements).

(** What the loops add for a list of entries. *)
Definition tally_of (entries : list (string * string * SelectorValidationResult))
    (t : Tally) : Tally :=
  mkTally
    (t_missing_required t
     ++ (entry_name <$> List.filter (fun e => is_missing e.2) entries))
    (t_optional_present t + length (List.filter (fun e => is_present e.2) entries))
    (t_total_optional t
     + length (List.filter (fun e => negb (is_required e.2)) entries))
    (t_validation_errors t
     ++ List.concat ((fun e => validation_errors e.2)
                       <$> List.filter (fun e => is_missing e.2) entries))
    (t_validation_warnings t
     ++ List.concat ((fun e => validation_warnings e.2)
                       <$> List.filter (fun e => negb (is_required e.2)) entries)).

End ReportNotions.

(** ** verify_selectors.py: discovery of shop pages *)

Module Discovery.
Import VerifySelectors VerifyReport.

(** [href.startswith('/')] *)
Definition starts_with_slash (href : string) : bool :=
  match href with
  | String "/" _ => true
  | _ => false
  end.

(** The body of the loop of [discover_shop_urls] (lines 591-595): the URL
    that a link adds to the set, if any. *)
Definition shop_url_of_link (link : Node) : option string :=
  match get link "href" with
  | Some href =>
      if str_truthy href && str_in "/shop/" href
      then Some (if starts_with_slash href then "https://weed.th" ++ href else href)
      else None
  | None => None
  end.

(** The set [shop_urls] after the loop over the links of the directory
    page. *)
Definition shop_urls (soup : Soup) : gset string :=
  foldl (fun (urls : gset string) link =>
           match shop_url_of_link link with
           | Some full_url => {[ full_url ]} ∪ urls
           | None => urls
           end)
        ∅ (soup_select soup "a[href*='/shop/']").

(** [discover_shop_urls] (lines 561-599) from the parsed directory page
    on.  [listing] is [list(...)] on a set, whose order Python leaves
    open. *)
Definition discover_shop_urls_from (listing : gset string -> list string)
    (soup : Soup) : list string :=
  take 10 (listing (shop_urls soup)).

End Discovery.

(** ** Further sample inputs *)

Module MoreSamples.
Import DecimalFloat Samples VerifySelectors VerifyReport.

(** The raw data of the complete page. *)
Definition shop_raw : gmap string RawValue := super_extract (document shop_page).

(** The complete page without product containers. *)
Definition page_without_items : Document :=
  document (without ["products.items"] shop_page).

(** A record with a rating above 5 and no product item. *)
Definition refused_record : ShopData :=
  mkShopData "Green House" "A shop." (6 # 1) None None None None
    (images shop_record) (<["items" := VList []]> (products shop_record)) None
    (location shop_record) ∅.

(** Raw data with a name only. *)
Definition name_only : gmap string RawValue := {[ "name" := RText "  Green House " ]}.

(** Raw data with a website link only. *)
Definition website_only : gmap string RawValue :=
  {[ "contact.website" := RNodes [element [] [("href", "https://green.example")]
                                    "<svg>" []] ]}.

(** A page on which no query matches. *)
Definition empty_soup : Soup := mkSoup "<html></html>" (fun _ => []).

(** A page whose only matches are two headings, for the query [h1]. *)
Definition heading_soup : Soup :=
  mkSoup "<html><h1>Green House</h1><h1>Two</h1></html>"
         (fun q => if String.eqb q "h1"
                   then [mkNode ["Green House"] ∅ "<h1>Green House</h1>" (fun _ => []);
                         mkNode ["Two"] ∅ "<h1>Two</h1>" (fun _ => [])]
                   else []).

(** The entry of the shop name. *)
Definition name_entry : SelectorConfig :=
  required_entry "h1" has_text "Shop name must not be empty".

(** A directory page with three links, two of them to the same shop. *)
Definition directory_soup : Soup :=
  mkSoup "<html>"
         (fun _ => [element [] [("href", "/shop/green-house/")] "<a>" [];
                    element [] [("href", "https://weed.th/shop/green-house/")] "<a>" [];
                    element [] [] "<a>" []]).

End MoreSamples.

(** * Properties *)

(** ** Auxiliary facts *)

Section Aux.
Context `{PF : PyFloat}.

Lemma bind_ok {A B} (r : result A) (k : A -> result B) (b : B) :
  r ≫= k = Ok b -> exists a, r = Ok a /\ k a = Ok b.
Proof. destruct r as [a|e]; simpl; [eauto | discriminate]. Qed.

End Aux.

(** ** The schema ([models.py]) *)

Section ModelFacts.
Context `{PF : PyFloat}.

Lemma check_rating_ok v :
  field_errors "rating" (check_rating v) = [] ->
  float_leb (float_of_Z 0) v = true /\ float_leb v (float_of_Z 5) = true.
Proof.
  unfold check_rating.
  destruct (float_leb (float_of_Z 0) v); simpl; [|discriminate].
  destruct (float_leb v (float_of_Z 5)); simpl; [auto|discriminate].
Qed.

Lemma check_reviews_count_ok v :
  field_errors "reviews_count" (check_reviews_count v) = [] ->
  forall z, v = Some z -> 0 <= z.
Proof.
  intros H z ->. simpl in H.
  destruct (0 <=? z) eqn:E; simpl in H; [lia | discriminate].
Qed.

Lemma dict_truthy_lookup (d : gmap string pyval) k :
  dict_truthy d k = true <-> exists v, d !! k = Some v /\ truthy v = true.
Proof.
  unfold dict_truthy. destruct (d !! k) as [v|]; split.
  - eauto.
  - intros (v' & [= <-] & Hv). exact Hv.
  - discriminate.
  - intros (v' & [=] & _).
Qed.

Lemma validate_images_ok v :
  field_errors "images" (validate_images v) = [] -> dict_truthy v "main" = true.
Proof.
  unfold validate_images. destruct (dict_truthy v "main"); simpl; [auto|discriminate].
Qed.

Lemma validate_products_ok v :
  field_errors "products" (validate_products v) = [] ->
  dict_truthy v "categories" = true /\ dict_truthy v "items" = true.
Proof.
  unfold validate_products.
  destruct (dict_truthy v "categories"); simpl; [|discriminate].
  destruct (dict_truthy v "items"); simpl; [auto|discriminate].
Qed.

Lemma validate_location_ok v :
  field_errors "location" (validate_location v) = [] ->
  dict_truthy v "area" = true /\ dict_truthy v "map" = true.
Proof.
  unfold validate_location.
  destruct (dict_truthy v "area"); simpl; [|discriminate].
  destruct (dict_truthy v "map"); simpl; [auto|discriminate].
Qed.

(** A record that passes the model has no violation. *)
Lemma ShopData_new_ok d d' :
  ShopData_new d = Ok d' -> d' = d /\ ShopData_violations d = [].
Proof.
  unfold ShopData_new. destruct (ShopData_violations d); [|discriminate].
  intros [= <-]. auto.
Qed.

Lemma violations_nil_valid d :
  ShopData_violations d = [] ->
  dict_truthy (images d) "main" = true
  /\ dict_truthy (products d) "categories" = true
  /\ dict_truthy (products d) "items" = true
  /\ dict_truthy (location d) "area" = true
  /\ dict_truthy (location d) "map" = true
  /\ float_leb (float_of_Z 0) (rating d) = true
  /\ float_leb (rating d) (float_of_Z 5) = true
  /\ (forall z, reviews_count d = Some z -> 0 <= z).
Proof.
  unfold ShopData_violations. intros H.
  repeat (apply app_eq_nil in H; destruct H as [? H]).
  pose proof (check_rating_ok _ ltac:(eassumption)) as [? ?].
  pose proof (check_reviews_count_ok _ ltac:(eassumption)).
  pose proof (validate_images_ok _ ltac:(eassumption)).
  pose proof (validate_products_ok _ ltac:(eassumption)) as [? ?].
  pose proof (validate_location_ok _ H) as [? ?].
  repeat split; assumption.
Qed.

(** C9.  Every record that passes the validation of [ShopData] has a
    non-empty [images.main], non-empty [products.categories] and
    [products.items], a [location.area] and a [location.map], a rating
    between 0 and 5, and a reviews count that is not negative when it is
    present.  ("Non-empty" is Python's truth value of the entry: the key
    is there and its value is not [None], an empty text or an empty
    collection.) *)
Theorem validated_record_invariants (d d' : ShopData) :
  ShopData_new d = Ok d' ->
  (exists v, images d' !! "main" = Some v /\ truthy v = true)
  /\ (exists v, products d' !! "categories" = Some v /\ truthy v = true)
  /\ (exists v, products d' !! "items" = Some v /\ truthy v = true)
  /\ (exists v, location d' !! "area" = Some v /\ truthy v = true)
  /\ (exists v, location d' !! "map" = Some v /\ truthy v = true)
  /\ float_leb (float_of_Z 0) (rating d') = true
  /\ float_leb (rating d') (float_of_Z 5) = true
  /\ (forall z, reviews_count d' = Some z -> 0 <= z).
Proof.
  intros [-> H]%ShopData_new_ok. rewrite <- !dict_truthy_lookup.
  by apply violations_nil_valid.
Qed.

End ModelFacts.

(** ** The extraction path ([extraction.py]) *)

Section ExtractionFacts.
Context `{PF : PyFloat}.

(** Inversion of a successful sequence of steps. *)
Ltac bind_inv H :=
  cbv zeta in H;
  repeat (let x := fresh "x" in
          let Hx := fresh "Hx" in
          apply bind_ok in H as (x & Hx & H); cbv zeta in H).

Lemma selectors_same_badge :
  selectors !! "verified" = selectors !! "status.delivery".
Proof. reflexivity. Qed.

Lemma super_extract_lookup (doc : Document) field :
  super_extract doc !! field = selectors !! field ≫= doc.
Proof. unfold super_extract. apply lookup_omap. Qed.

(** What [extract_from] returns is the candidate record itself, and it has
    no violation. *)
Lemma extract_from_ok raw soup d :
  extract_from raw soup = Ok d ->
  ShopData_violations d = []
  /\ verified d = Some (raw_truthy (raw !! "verified"))
  /\ delivery_service d = Some (raw_truthy (raw !! "status.delivery"))
  /\ _parse_reviews_count (raw !! "reviews.count") = Ok (reviews_count d)
  /\ _parse_rating (raw !! "rating") = Ok (rating d)
  /\ _process_products raw = Ok (products d)
  /\ metadata d !! "missing_optional_fields" = Some (VList []).
Proof.
  intros H. unfold extract_from in H. bind_inv H.
  apply ShopData_new_ok in H as [-> Hv]. simpl. repeat split; try assumption.
Qed.

(** *** Number from text *)

Lemma filter_chars_all pred s : all_chars pred (filter_chars pred s) = true.
Proof.
  induction s as [|c s IH]; simpl; [reflexivity|].
  destruct (pred c) eqn:E; simpl; [by rewrite E|done].
Qed.

Lemma int_of_digits_decimal s :
  all_chars isdecimal s = true ->
  int_of_digits s =
    if str_truthy s && (String.length s <=? int_max_str_digits)%nat
    then Some (digits_value 0 s) else None.
Proof.
  intros H. unfold int_of_digits. destruct s; [reflexivity|]. by rewrite H.
Qed.

Lemma int_of_digits_superscript s :
  all_chars isdecimal s = false -> int_of_digits s = None.
Proof.
  intros H. unfold int_of_digits. destruct s; [reflexivity|]. by rewrite H.
Qed.

Lemma parse_price_eq (price_element : option Node) :
  _parse_price price_element =
    Ok (price_element
          ≫= fun el => float_of_string (filter_chars isdigit (get_text_strip el))).
Proof.
  destruct price_element as [el|]; [|reflexivity]. simpl. unfold py_float.
  by destruct (float_of_string _).
Qed.

Lemma parse_reviews_count_nodes (el : Node) (rest : list Node) :
  _parse_reviews_count (Some (RNodes (el :: rest))) =
    Ok (int_of_digits (filter_chars isdigit (get_text_strip el))).
Proof.
  simpl. unfold py_int. by destruct (int_of_digits _).
Qed.

(** [_parse_reviews_count] never raises. *)
Lemma parse_reviews_count_total v : exists n, _parse_reviews_count v = Ok n.
Proof.
  destruct v as [[s|l]|]; simpl; eauto.
  - destruct s; simpl; eauto.
  - destruct l as [|el rest]; simpl; eauto.
    unfold py_int. destruct (int_of_digits _); simpl; eauto.
Qed.

(** C6 (as amended).  Number-from-text coercion, for the price and for
    the reviews count, keeps every character of the trimmed text of the
    element that [str.isdigit] accepts, in order, and parses their
    concatenation (a float for the price, an integer for the reviews
    count); it does not select one run of digits.  Both fields are
    optional and neither coercion raises.  For a text without digit the
    result is [None].  For a text whose digits are all decimal digits the
    price is a number, and so is the reviews count when the digits are
    within the limit of [int].  For a text with a digit that is not a
    decimal digit (a superscript digit) the result is [None], whatever
    other digits the text has. *)
Theorem number_from_text_keeps_all_digits (el : Node) (rest : list Node) :
  let digits := filter_chars isdigit (get_text_strip el) in
  _parse_price (Some el) = Ok (float_of_string digits)
  /\ _parse_reviews_count (Some (RNodes (el :: rest))) = Ok (int_of_digits digits)
  /\ (digits = EmptyString ->
      float_of_string digits = None /\ int_of_digits digits = None)
  /\ (digits <> EmptyString -> all_chars isdecimal digits = true ->
      is_Some (float_of_string digits)
      /\ ((String.length digits <= int_max_str_digits)%nat ->
          int_of_digits digits = Some (digits_value 0 digits)))
  /\ (all_chars isdecimal digits = false ->
      float_of_string digits = None /\ int_of_digits digits = None).
Proof.
  intros digits. split; [|split; [|split; [|split]]].
  - apply parse_price_eq.
  - apply parse_reviews_count_nodes.
  - intros ->. split; [apply float_of_string_empty | reflexivity].
  - intros Hne Hdec. split.
    + by apply float_of_string_digits.
    + intros Hlen. rewrite (int_of_digits_decimal digits Hdec).
      destruct digits; [done|].
      simpl str_truthy. apply Nat.leb_le in Hlen. by rewrite Hlen.
  - intros Hsup. split.
    + apply float_of_string_superscript; [apply filter_chars_all | done].
    + by apply int_of_digits_superscript.
Qed.

(** *** Rating *)

Lemma parse_rating_nodes (n : Node) (rest : list Node) :
  _parse_rating (Some (RNodes (n :: rest))) =
    Ok (match split (get_default n "alt" "0") with
        | [] => float_of_Z 0
        | tok :: _ => default (float_of_Z 0) (float_of_string tok)
        end).
Proof.
  simpl. destruct (split _) as [|tok toks]; simpl; [reflexivity|].
  unfold py_float. by destruct (float_of_string tok).
Qed.

(** C5 (as amended).  When the rating element is present and the first
    word of its [alt] text is not a float, [_parse_rating] does not fail:
    it returns the rating 0.0. *)
Theorem rating_uncoercible_defaults_to_zero
    (n : Node) (rest : list Node) (tok : string) (toks : list string) :
  split (get_default n "alt" "0") = tok :: toks ->
  float_of_string tok = None ->
  _parse_rating (Some (RNodes (n :: rest))) = Ok (float_of_Z 0).
Proof.
  intros Hs Hf. by rewrite parse_rating_nodes, Hs, Hf.
Qed.

(** *** Products *)

Lemma for_each_all {A B} (f : A -> result B) (g : A -> B) (l : list A) :
  (forall x, x ∈ l -> f x = Ok (g x)) -> for_each f l = Ok (g <$> l).
Proof.
  induction l as [|x l IH]; intros H; simpl; [reflexivity|].
  rewrite (H x) by constructor. simpl.
  rewrite IH; [reflexivity|]. intros y Hy. apply H. by constructor.
Qed.

Lemma for_each_raise {A B} (f : A -> result B) (l : list A) (x : A) (e : exn) :
  x ∈ l -> f x = Raise e -> exists e', for_each f l = Raise e'.
Proof.
  induction l as [|y l IH]; intros Hin Hf; [by apply elem_of_nil in Hin|].
  simpl. apply elem_of_cons in Hin as [<-|Hin].
  - rewrite Hf. simpl. eauto.
  - destruct (f y); simpl; [|eauto].
    destruct (IH Hin Hf) as [e' ->]. simpl. eauto.
Qed.

Lemma product_of_container_named (item : Node) :
  has_name item = true -> product_of_container item = Ok (container_item item).
Proof.
  unfold has_name, product_of_container, container_item.
  destruct (select_one item (selector "products.item.name")) as [n|]; [|discriminate].
  intros Hn. simpl. rewrite parse_price_eq. simpl.
  unfold ProductItem_new, name_must_not_be_empty. by rewrite Hn.
Qed.

Lemma product_of_container_unnamed (item : Node) :
  has_name item = false ->
  product_of_container item =
    Raise (match select_one item (selector "products.item.name") with
           | None => AttributeError "'NoneType' object has no attribute 'get_text'"
           | Some _ =>
               ValidationError "ProductItem" [("name", "Product name cannot be empty")]
           end).
Proof.
  unfold has_name, product_of_container.
  destruct (select_one item (selector "products.item.name")) as [n|]; [|reflexivity].
  intros Hn. simpl. rewrite parse_price_eq. simpl.
  unfold ProductItem_new, name_must_not_be_empty. by rewrite Hn.
Qed.

Lemma forallb_false_elem {A} (p : A -> bool) (l : list A) :
  forallb p l = false -> exists x, x ∈ l /\ p x = false.
Proof.
  induction l as [|x l IH]; simpl; [discriminate|].
  destruct (p x) eqn:E; simpl.
  - intros (y & Hy & Hp)%IH. exists y. split; [by constructor | done].
  - intros _. exists x. split; [constructor | done].
Qed.

Lemma product_of_container_ok_named (item : Node) (product : gmap string pyval) :
  product_of_container item = Ok product ->
  has_name item = true /\ product = container_item item.
Proof.
  destruct (has_name item) eqn:Hn.
  - rewrite (product_of_container_named item Hn). by intros [= <-].
  - by rewrite (product_of_container_unnamed item Hn).
Qed.

Lemma Forall2_container_item (containers : list Node) :
  forallb has_name containers = true ->
  Forall2 (fun c item => product_of_container c = Ok item)
          containers (container_item <$> containers).
Proof.
  induction containers as [|c l IH]; simpl; [constructor|].
  intros [Hc Hl]%andb_prop. constructor; [|by apply IH].
  by apply product_of_container_named.
Qed.

(** C1 (as amended).  The assembly of [products.items] is all or nothing.
    When every matched product container has a name element whose trimmed
    text is not empty, [_process_products] gives one [ProductItem] per
    container, in document order.  When some container lacks its name (no
    name element, or an empty text), [_process_products] raises: no items
    list is produced, no failure is recorded and no sibling item is kept. *)
Theorem product_items_all_or_nothing
    (data : gmap string RawValue) (containers cats : list Node) :
  data !! "products.items" = Some (RNodes containers) ->
  data !! "products.categories" = Some (RNodes cats) ->
  (forallb has_name containers = true ->
   exists products items,
     _process_products data = Ok products
     /\ products !! "items" = Some (VList (VDict <$> items))
     /\ Forall2 (fun c item => product_of_container c = Ok item) containers items
     /\ length items = length containers)
  /\ (forallb has_name containers = false ->
      exists e, _process_products data = Raise e).
Proof.
  intros Hi Hc. unfold _process_products. rewrite Hi, Hc. simpl. split.
  - intros Hall. rewrite (for_each_all _ container_item).
    + simpl. eexists. exists (container_item <$> containers).
      split; [reflexivity|]. split; [reflexivity|].
      split; [by apply Forall2_container_item | by rewrite length_fmap].
    + intros x Hx. apply product_of_container_named.
      rewrite forallb_forall in Hall. apply Hall. by apply list_elem_of_In.
  - intros (x & Hx & Hn)%forallb_false_elem.
    destruct (for_each_raise product_of_container containers x _ Hx
                (product_of_container_unnamed x Hn)) as [e ->].
    simpl. eauto.
Qed.

(** *** Lists of text *)

Lemma omap_nonempty_texts (l : list Node) :
  omap (fun offer => if str_truthy (get_text_strip offer)
                     then Some (get_text_strip offer) else None) l
  = List.filter str_truthy (get_text_strip <$> l).
Proof.
  induction l as [|x l IH]; [reflexivity|]. csimpl.
  destruct (str_truthy (get_text_strip x)); by rewrite IH.
Qed.

Lemma parse_special_offers_nodes (l : list Node) :
  _parse_special_offers (Some (RNodes l)) =
    Ok (List.filter str_truthy (get_text_strip <$> l)).
Proof.
  destruct l as [|n l]; [reflexivity|].
  rewrite <- omap_nonempty_texts. reflexivity.
Qed.

Lemma special_offers_drop_empty (l : list Node) (offers : list string) :
  _parse_special_offers (Some (RNodes l)) = Ok offers -> EmptyString ∉ offers.
Proof.
  rewrite parse_special_offers_nodes. intros [= <-].
  intros Hin%list_elem_of_In. apply filter_In in Hin as [_ Hin]. discriminate Hin.
Qed.

(** C7, as the code has it.  Special offers are the trimmed texts of the
    matched elements, in document order, without the empty ones.  Product
    categories and the categories of an item are the trimmed texts of all
    the matched elements, in document order, the empty ones included. *)
Theorem categories_keep_empty_texts
    (data : gmap string RawValue) (offers cats : list Node) (item : Node)
    (products product : gmap string pyval) :
  _parse_special_offers (Some (RNodes offers))
    = Ok (List.filter str_truthy (get_text_strip <$> offers))
  /\ (data !! "products.categories" = Some (RNodes cats) ->
      _process_products data = Ok products ->
      products !! "categories" = Some (VList (VStr <$> (get_text_strip <$> cats))))
  /\ (product_of_container item = Ok product ->
      product !! "category"
      = Some (VList (VStr <$> (get_text_strip
                               <$> select item (selector "products.item.category"))))).
Proof.
  split; [apply parse_special_offers_nodes|]. split.
  - intros Hc H. unfold _process_products in H. rewrite Hc in H. simpl in H.
    apply bind_ok in H as (items & _ & [= <-]). reflexivity.
  - intros [_ ->]%product_of_container_ok_named. reflexivity.
Qed.

(** *** Map coordinates *)

Lemma float_attr_truthy (e : Node) (attr s : string) :
  get e attr = Some s -> str_truthy s = true ->
  float_attr e attr =
    match float_of_string s with
    | Some x => Ok (VFloat x)
    | None => Raise (ValueError ("could not convert string to float: " ++ s))
    end.
Proof.
  intros Hg Hs. unfold float_attr. rewrite Hg, Hs. unfold py_float.
  by destruct (float_of_string s).
Qed.

(** The outcome of [_process_map] on a matched map element, by cases on
    its two attributes: [None] unless both are there and not empty; then a
    pair of floats when both parse, and [ValueError] otherwise. *)
Lemma process_map_cases (m : Node) (rest : list Node) (soup : Document) :
  _process_map (RNodes (m :: rest)) soup =
    if attr_truthy m "data-lat" && attr_truthy m "data-lng" then
      match float_of_string (default EmptyString (get m "data-lat")),
            float_of_string (default EmptyString (get m "data-lng")) with
      | Some x, Some y =>
          Ok (MapLocation_dict
                (mkMapLocation (node_html m)
                   (Some (list_to_map [("lat", VFloat x); ("lng", VFloat y)]))))
      | None, _ =>
          Raise (ValueError ("could not convert string to float: "
                             ++ default EmptyString (get m "data-lat")))
      | Some _, None =>
          Raise (ValueError ("could not convert string to float: "
                             ++ default EmptyString (get m "data-lng")))
      end
    else Ok (MapLocation_dict (mkMapLocation (node_html m) None)).
Proof.
  unfold _process_map. simpl negb. cbv iota.
  unfold attr_truthy.
  destruct (get m "data-lat") as [la|] eqn:Hla; [|reflexivity].
  destruct (str_truthy la) eqn:Tla; [|reflexivity].
  destruct (get m "data-lng") as [ln|] eqn:Hln; [|reflexivity].
  destruct (str_truthy ln) eqn:Tln; [|reflexivity].
  simpl andb. cbv iota.
  rewrite (float_attr_truthy m _ la Hla Tla), (float_attr_truthy m _ ln Hln Tln).
  simpl. destruct (float_of_string la); simpl; [|reflexivity].
  destruct (float_of_string ln); reflexivity.
Qed.

(** C2, as the code has it.  On a matched map element [_process_map]
    gives no coordinates when an attribute is absent or empty, and the
    pair of floats when both attributes parse; it never gives half a pair.
    When both attributes are present and not empty and one of them is not a
    float, it raises [ValueError] instead of giving no coordinates. *)
Theorem coordinate_pair_outcomes (m : Node) (rest : list Node) (soup : Document) :
  (attr_truthy m "data-lat" && attr_truthy m "data-lng" = false ->
   exists loc,
     _process_map (RNodes (m :: rest)) soup = Ok loc
     /\ loc !! "coordinates" = Some VNone)
  /\ (forall la ln x y,
       get m "data-lat" = Some la -> str_truthy la = true ->
       get m "data-lng" = Some ln -> str_truthy ln = true ->
       float_of_string la = Some x -> float_of_string ln = Some y ->
       exists loc,
         _process_map (RNodes (m :: rest)) soup = Ok loc
         /\ loc !! "coordinates"
            = Some (VDict (list_to_map [("lat", VFloat x); ("lng", VFloat y)])))
  /\ (forall la ln,
       get m "data-lat" = Some la -> str_truthy la = true ->
       get m "data-lng" = Some ln -> str_truthy ln = true ->
       float_of_string la = None \/ float_of_string ln = None ->
       exists msg, _process_map (RNodes (m :: rest)) soup = Raise (ValueError msg)).
Proof.
  rewrite process_map_cases. split; [|split].
  - intros ->. eexists. split; reflexivity.
  - intros la ln x y Hla Tla Hln Tln Hx Hy. unfold attr_truthy.
    rewrite Hla, Hln, Tla, Tln. simpl. rewrite Hx, Hy.
    eexists. split; reflexivity.
  - intros la ln Hla Tla Hln Tln Hf. unfold attr_truthy.
    rewrite Hla, Hln, Tla, Tln. simpl.
    destruct (float_of_string la), (float_of_string ln), Hf; try discriminate; eauto.
Qed.

(** C10.  In every record that [extract] returns, [verified] and
    [delivery_service] are equal: each is the truth value of the entry that
    the base strategy gives for its field, and the two fields have the same
    selector. *)
Theorem verified_eq_delivery_service (doc : Document) (d : ShopData) :
  extract doc = Ok d -> verified d = delivery_service d.
Proof.
  unfold extract. intros (_ & -> & -> & _)%extract_from_ok.
  by rewrite !super_extract_lookup, selectors_same_badge.
Qed.

(** *** The outcome of an extraction *)

Lemma main_image_entry (doc : Document) :
  super_extract doc !! "images.main" = doc (selector "images.main").
Proof. rewrite super_extract_lookup. reflexivity. Qed.

Lemma get_image_url_missing (raw : gmap string RawValue) (field : string) :
  raw_truthy (raw !! field) = false ->
  _get_image_url raw field =
    Raise (ValueError ("Required image field '" ++ field ++ "' is missing")).
Proof.
  unfold _get_image_url. destruct (raw !! field) as [v|]; [|reflexivity].
  by intros ->.
Qed.

Lemma extract_from_no_main_image (raw : gmap string RawValue) (soup : Document) :
  raw_truthy (raw !! "images.main") = false ->
  exists e,
    extract_from raw soup = Raise e
    /\ (is_ok (_get_text raw "name") = true ->
        is_ok (_get_text raw "description") = true ->
        is_ok (_parse_rating (raw !! "rating")) = true ->
        is_ok (_parse_special_offers (raw !! "special_offers")) = true ->
        e = ValueError "Required image field 'images.main' is missing").
Proof.
  intros Hm. unfold extract_from. cbv zeta.
  destruct (_get_text raw "name") as [n|e]; simpl;
    [|exists e; split; [reflexivity | discriminate]].
  destruct (_get_text raw "description") as [dsc|e]; simpl;
    [|exists e; split; [reflexivity | intros _; discriminate]].
  destruct (_parse_rating (raw !! "rating")) as [r|e]; simpl;
    [|exists e; split; [reflexivity | intros _ _; discriminate]].
  destruct (parse_reviews_count_total (raw !! "reviews.count")) as [rc ->]. simpl.
  destruct (_parse_special_offers (raw !! "special_offers")) as [so|e]; simpl;
    [|exists e; split; [reflexivity | intros _ _ _; discriminate]].
  rewrite (get_image_url_missing raw "images.main" Hm). simpl.
  eexists. split; reflexivity.
Qed.

(** C3 (as amended).  For every document, [extract] either returns a
    record that has no violation of the [ShopData] model, or raises one
    exception and returns no record; a record with a violation is never
    returned.  The exception is the first failure met while the fields are
    built in order (it need not name a field path), or the model's
    [ValidationError].  A document whose main-image query matches nothing
    yields no record; when its name, description, rating and special
    offers coerce, the exception is the [ValueError] that names
    [images.main]. *)
Theorem extract_record_or_exception (doc : Document) :
  ((exists d, extract doc = Ok d /\ ShopData_violations d = [])
   \/ (exists e, extract doc = Raise e))
  /\ (raw_truthy (doc (selector "images.main")) = false ->
      (exists e, extract doc = Raise e)
      /\ (is_ok (_get_text (super_extract doc) "name") = true ->
          is_ok (_get_text (super_extract doc) "description") = true ->
          is_ok (_parse_rating (super_extract doc !! "rating")) = true ->
          is_ok (_parse_special_offers (super_extract doc !! "special_offers")) = true ->
          extract doc =
            Raise (ValueError "Required image field 'images.main' is missing"))).
Proof.
  split.
  - destruct (extract doc) as [d|e] eqn:E; [left | right; eauto].
    exists d. split; [reflexivity|]. by apply extract_from_ok in E as [? _].
  - intros Hm. rewrite <- main_image_entry in Hm.
    destruct (extract_from_no_main_image _ doc Hm) as (e & He & Hspec).
    unfold extract. split; [eauto|].
    intros H1 H2 H3 H4. by rewrite He, (Hspec H1 H2 H3 H4).
Qed.

(** C4, what the code does: the list of missing optional fields of a
    returned record is empty, whatever the optional fields are. *)
Theorem missing_optional_fields_stays_empty (doc : Document) (d : ShopData) :
  extract doc = Ok d ->
  metadata d !! "missing_optional_fields" = Some (VList []).
Proof.
  unfold extract. by intros (_ & _ & _ & _ & _ & _ & H)%extract_from_ok.
Qed.

End ExtractionFacts.

(** ** The diagnostic harness ([verify_selectors.py]) *)

Section HarnessFacts.
Import VerifySelectors.

Lemma samples_run_validation config elements r :
  samples (run_validation config elements r) = samples r.
Proof.
  unfold run_validation.
  destruct (cfg_validation config) as [validation|]; [|reflexivity].
  destruct elements as [|first rest]; [reflexivity|].
  destruct (validation first) as [[|]|e]; [reflexivity| |reflexivity].
  by destruct (cfg_required config).
Qed.

Lemma samples_loop soup section field elements r :
  samples (foldl (loop_step soup section field) r elements)
  = (samples r ++ (loop_sample section field <$> elements))%list.
Proof.
  revert r. induction elements as [|e l IH]; intros r; simpl.
  - by rewrite app_nil_r.
  - rewrite IH. simpl. by rewrite <- app_assoc.
Qed.

(** The samples of a result: the entries put in when the result is
    built, followed by the entries that the loop appends, both for the
    first three matches. *)
Lemma samples_validate_selector soup section field config :
  let firsts := take 3 (soup_select soup (cfg_selector config)) in
  samples (validate_selector soup section field config)
  = (((fun e => mkSample (get_text_safely e) (Some <$> node_attrs e) None) <$> firsts)
     ++ (loop_sample section field <$> firsts))%list.
Proof.
  unfold validate_selector. cbv zeta.
  rewrite samples_run_validation, samples_loop.
  by destruct (cfg_extract config).
Qed.

(** C8, what the code does: a result holds two samples for each of the
    first three matches, so up to six. *)
Theorem samples_length_doubled soup section field config :
  length (samples (validate_selector soup section field config))
  = (2 * Nat.min 3 (length (soup_select soup (cfg_selector config))))%nat.
Proof.
  rewrite samples_validate_selector. cbv zeta.
  rewrite length_app, !length_fmap, length_take. lia.
Qed.

End HarnessFacts.

(** ** The properties on concrete documents *)

Section Scenarios.
Import Samples DecimalFloat VerifySelectors.

Lemma extract_shop_page : extract (document shop_page) = Ok shop_page_record.
Proof. reflexivity. Qed.

(** *** C1 *)

(** Three product containers of which the second has no name (no name
    element, or a blank one): no items list of length 2 comes out, the call
    raises. *)
Lemma product_items_isolation_counterexample :
  let data (second : Node) : gmap string RawValue :=
    {[ "products.items" := RNodes [blue_dream; second; og_kush] ]} in
  _process_products (data nameless)
    = Raise (AttributeError "'NoneType' object has no attribute 'get_text'")
  /\ _process_products (data blank_name)
    = Raise (ValidationError "ProductItem" [("name", "Product name cannot be empty")])
  /\ ~ (exists products items,
          _process_products (data nameless) = Ok products
          /\ products !! "items" = Some (VList items)
          /\ length items = 2%nat).
Proof.
  cbv zeta.
  assert (_process_products
            {[ "products.items" := RNodes [blue_dream; nameless; og_kush] ]}
          = Raise (AttributeError "'NoneType' object has no attribute 'get_text'"))
    as Hraise by (reflexivity).
  split; [exact Hraise|]. split; [reflexivity|].
  intros (products & items & H & _). rewrite Hraise in H. discriminate H.
Qed.

Lemma product_items_all_or_nothing_witness :
  let data (l : list Node) : gmap string RawValue :=
    list_to_map [("products.items", RNodes l);
                 ("products.categories", RNodes [text_node "Flowers"])] in
  (forallb has_name [blue_dream; og_kush] = true
   /\ exists products items,
        _process_products (data [blue_dream; og_kush]) = Ok products
        /\ products !! "items" = Some (VList items)
        /\ length items = 2%nat)
  /\ (forallb has_name [blue_dream; nameless; og_kush] = false
      /\ exists e, _process_products (data [blue_dream; nameless; og_kush]) = Raise e).
Proof.
  cbv zeta. split.
  - split; [reflexivity|].
    destruct (product_items_all_or_nothing
                (list_to_map [("products.items", RNodes [blue_dream; og_kush]);
                              ("products.categories", RNodes [text_node "Flowers"])])
                [blue_dream; og_kush] [text_node "Flowers"])
      as [Hall _]; [reflexivity | reflexivity |].
    destruct Hall as (products & items & Hp & Hi & _ & Hlen); [reflexivity|].
    exists products, (VDict <$> items). split; [exact Hp|]. split; [exact Hi|].
    rewrite length_fmap. exact Hlen.
  - split; [reflexivity|].
    apply (product_items_all_or_nothing _ [blue_dream; nameless; og_kush]
             [text_node "Flowers"]); reflexivity.
Defined.

(** *** C2 *)

Lemma coordinate_pair_outcomes_witness :
  get comma_map "data-lat" = Some "13,7563"
  /\ float_of_string "13,7563" = None
  /\ exists msg,
       _process_map (RNodes [comma_map]) (document shop_page) = Raise (ValueError msg).
Proof.
  split; [reflexivity|]. split; [reflexivity|].
  destruct (coordinate_pair_outcomes comma_map [] (document shop_page))
    as (_ & _ & Hraise).
  apply (Hraise "13,7563" "100.5018"); try reflexivity.
  left. reflexivity.
Defined.

Example coordinates_unparsable_message :
  _process_map (RNodes [comma_map]) (document shop_page)
  = Raise (ValueError "could not convert string to float: 13,7563").
Proof. reflexivity. Qed.

(** The cases in which the code agrees with the claim. *)
Example coordinates_both_parse :
  exists m,
    _process_map (RNodes [bangkok_map]) (document shop_page) = Ok m
    /\ m !! "coordinates"
       = Some (VDict (list_to_map [("lat", VFloat (137563 # 10000));
                                   ("lng", VFloat (1005018 # 10000))])).
Proof. eexists. split; reflexivity. Qed.

Example coordinates_one_sided :
  exists m,
    _process_map (RNodes [map_div [("data-lat", "13.7563")]]) (document shop_page) = Ok m
    /\ m !! "coordinates" = Some VNone.
Proof. eexists. split; reflexivity. Qed.

(** *** C3 *)

(** A page without main image and without name: the one exception names
    [name], not [images.main].  A page with a nameless product: the
    exception names no field path at all. *)
Lemma extract_violation_counterexample :
  let doc1 := document (without ["images.main"; "name"] shop_page) in
  let doc2 :=
    document ((selector "products.items", RNodes [nameless]) :: shop_page) in
  (raw_truthy (doc1 (selector "images.main")) = false
   /\ extract doc1 = Raise (ValueError "Required field 'name' is missing")
   /\ contains "images.main" "Required field 'name' is missing" = false)
  /\ (extract doc2
        = Raise (AttributeError "'NoneType' object has no attribute 'get_text'")
      /\ names_no_field "'NoneType' object has no attribute 'get_text'" = true).
Proof. cbv zeta. repeat split; reflexivity. Qed.

Lemma extract_record_or_exception_witness :
  let doc := document (without ["images.main"] shop_page) in
  raw_truthy (doc (selector "images.main")) = false
  /\ extract doc = Raise (ValueError "Required image field 'images.main' is missing").
Proof.
  cbv zeta. split; [reflexivity|].
  apply (extract_record_or_exception (document (without ["images.main"] shop_page)));
    reflexivity.
Defined.

(** *** C4 *)

(** The complete page has no reviews count, no offers and no contact
    entry, and the record lists no missing optional field. *)
Lemma missing_optional_fields_stays_empty_witness :
  extract (document shop_page) = Ok shop_page_record
  /\ reviews_count shop_page_record = None
  /\ contact shop_page_record = None
  /\ metadata shop_page_record !! "missing_optional_fields" = Some (VList []).
Proof.
  split; [exact extract_shop_page|]. split; [reflexivity|]. split; [reflexivity|].
  apply (missing_optional_fields_stays_empty (document shop_page) shop_page_record).
  exact extract_shop_page.
Defined.

(** *** C5 *)

(** The rating image of the page has the [alt] text that its selector
    asks for, which is not a number: the rating is 0, and the record is
    returned. *)
Lemma rating_default_counterexample :
  get rating_img "alt" = Some "rating"
  /\ float_of_string "rating" = None
  /\ _parse_rating (Some (RNodes [rating_img])) = Ok 0%Q
  /\ extract (document shop_page) = Ok shop_page_record
  /\ rating shop_page_record = 0%Q.
Proof.
  split; [reflexivity|]. split; [reflexivity|].
  split; [reflexivity|]. split; [exact extract_shop_page | reflexivity].
Qed.

Lemma rating_uncoercible_defaults_to_zero_witness :
  split (get_default rating_img "alt" "0") = ["rating"]
  /\ float_of_string "rating" = None
  /\ _parse_rating (Some (RNodes [rating_img])) = Ok (float_of_Z 0).
Proof.
  split; [reflexivity|]. split; [reflexivity|].
  apply (rating_uncoercible_defaults_to_zero rating_img [] "rating" []); reflexivity.
Defined.

(** *** C6 *)

(** Texts with two runs of digits: the code parses all the digits, the
    longest run is a different number. *)
Lemma longest_digit_run_counterexample :
  (_parse_reviews_count (Some (RNodes [text_node "1,024 reviews"])) = Ok (Some 1024)
   /\ longest_digit_run "1,024 reviews" = "024"
   /\ int_of_digits (longest_digit_run "1,024 reviews") = Some 24)
  /\ (_parse_price (Some (text_node "12.50")) = Ok (Some (1250 # 1))
      /\ longest_digit_run "12.50" = "12"
      /\ float_of_string (longest_digit_run "12.50") = Some (12 # 1)).
Proof. repeat split; reflexivity. Qed.

Lemma number_from_text_keeps_all_digits_witness :
  filter_chars isdigit (get_text_strip (text_node "$1200")) = "1200"
  /\ _parse_price (Some (text_node "$1200")) = Ok (Some (1200 # 1))
  /\ _parse_reviews_count (Some (RNodes [text_node "$1200"])) = Ok (Some 1200)
  /\ _parse_price (Some (text_node "call us")) = Ok None
  /\ filter_chars isdigit (get_text_strip (text_node five_squared)) = five_squared
  /\ _parse_price (Some (text_node five_squared)) = Ok None
  /\ _parse_reviews_count (Some (RNodes [text_node five_squared])) = Ok None.
Proof.
  pose proof (number_from_text_keeps_all_digits (text_node "$1200") []) as H1.
  pose proof (number_from_text_keeps_all_digits (text_node "call us") []) as H2.
  pose proof (number_from_text_keeps_all_digits (text_node five_squared) []) as H3.
  cbv zeta in H1, H2, H3.
  destruct H1 as (Hp & Hr & _ & Hd & _), H2 as (Hp' & _ & He & _),
           H3 as (Hp3 & Hr3 & _ & _ & Hs).
  assert (filter_chars isdigit (get_text_strip (text_node "call us")) = EmptyString)
    as Hnone by (reflexivity).
  destruct (He Hnone) as [Hf _].
  destruct (Hs eq_refl) as [Hf3 Hi3].
  split; [reflexivity|]. split; [exact Hp|]. split; [exact Hr|].
  split; [rewrite Hp'; exact (f_equal Ok Hf)|].
  split; [reflexivity|].
  split; [rewrite Hp3; exact (f_equal Ok Hf3) | rewrite Hr3; exact (f_equal Ok Hi3)].
Defined.

(** *** C7 *)

(** The matched texts ["  "], ["A"] and the empty text, as product
    categories and as the categories of an item: the empty texts stay.  As
    special offers they are dropped. *)
Lemma categories_keep_empty_texts_witness :
  let data : gmap string RawValue := {[ "products.categories" := RNodes three_texts ]} in
  let item := container ["Blue Dream"] [] ["  "; "A"; EmptyString] in
  let products : gmap string pyval :=
    list_to_map
      [("categories", VList [VStr EmptyString; VStr "A"; VStr EmptyString]);
       ("items", VList [])] in
  (_process_products data = Ok products
   /\ products !! "categories"
      = Some (VList [VStr EmptyString; VStr "A"; VStr EmptyString]))
  /\ (product_of_container item = Ok (container_item item)
      /\ container_item item !! "category"
         = Some (VList [VStr EmptyString; VStr "A"; VStr EmptyString]))
  /\ _parse_special_offers (Some (RNodes three_texts)) = Ok ["A"].
Proof.
  cbv zeta.
  destruct (categories_keep_empty_texts
              {[ "products.categories" := RNodes three_texts ]} three_texts three_texts
              (container ["Blue Dream"] [] ["  "; "A"; EmptyString])
              (list_to_map
                 [("categories", VList [VStr EmptyString; VStr "A"; VStr EmptyString]);
                  ("items", VList [])])
              (container_item (container ["Blue Dream"] [] ["  "; "A"; EmptyString])))
    as (Ho & Hc & Hi).
  split; [split; [reflexivity | apply Hc; reflexivity]|].
  split; [split; [reflexivity | apply Hi; reflexivity] | exact Ho].
Defined.

Example special_offers_three_texts :
  _parse_special_offers (Some (RNodes three_texts)) = Ok ["A"].
Proof. reflexivity. Qed.

(** *** C8 *)

(** A field whose selector matches four elements: six samples. *)
Example samples_of_four_matches :
  let soup := mkSoup "<html>" (fun _ => text_node <$> ["a"; "b"; "c"; "d"]) in
  let config := mkSelectorConfig "h1" true None None None None in
  length (samples (validate_selector soup "basic" "name" config)) = 6%nat.
Proof. reflexivity. Qed.

(** *** C9 *)

Lemma validated_record_invariants_witness :
  ShopData_new shop_record = Ok shop_record
  /\ float_leb (float_of_Z 0) (rating shop_record) = true
  /\ float_leb (rating shop_record) (float_of_Z 5) = true.
Proof.
  split; [reflexivity|].
  pose proof (validated_record_invariants shop_record shop_record eq_refl)
    as (_ & _ & _ & _ & _ & Hge & Hle & _).
  split; [exact Hge | exact Hle].
Defined.

(** The model refuses a rating above 5 and an empty list of items. *)
Example rating_above_five_refused :
  ShopData_new
    (mkShopData "Green House" "A shop." (6 # 1) None None None None
       (images shop_record) (<["items" := VList []]> (products shop_record)) None
       (location shop_record) ∅)
  = Raise (ValidationError "ShopData"
             [("rating", "ensure this value is less than or equal to 5");
              ("products", "At least one product item is required")]).
Proof. reflexivity. Qed.

(** *** C10 *)

(** A page with the badge: both fields are true. *)
Lemma verified_eq_delivery_service_witness :
  let doc :=
    document ((selector "verified", RNodes [text_node "Verified"]) :: shop_page) in
  let d :=
    mkShopData (name shop_page_record) (description shop_page_record)
      (rating shop_page_record) (reviews_count shop_page_record)
      (Some true) (Some true) (special_offers shop_page_record)
      (images shop_page_record) (products shop_page_record)
      (contact shop_page_record) (location shop_page_record)
      (metadata shop_page_record) in
  extract doc = Ok d /\ verified d = delivery_service d.
Proof.
  cbv zeta.
  assert (extract
            (document ((selector "verified", RNodes [text_node "Verified"]) :: shop_page))
          = Ok (mkShopData (name shop_page_record) (description shop_page_record)
                  (rating shop_page_record) (reviews_count shop_page_record)
                  (Some true) (Some true) (special_offers shop_page_record)
                  (images shop_page_record) (products shop_page_record)
                  (contact shop_page_record) (location shop_page_record)
                  (metadata shop_page_record)))
    as Hd by (reflexivity).
  split; [exact Hd|].
  exact (verified_eq_delivery_service _ _ Hd).
Defined.

(** *** The end-to-end scenario of the specification *)

Example blue_dream_scenario :
  exists items m,
    extract (document shop_page) = Ok shop_page_record
    /\ products shop_page_record !! "items" = Some (VList [VDict items])
    /\ items !! "name" = Some (VStr "Blue Dream")
    /\ items !! "price" = Some (VFloat (1200 # 1))
    /\ items !! "description" = Some VNone
    /\ items !! "category" = Some (VList [])
    /\ items !! "image" = Some VNone
    /\ location shop_page_record !! "map" = Some (VDict m)
    /\ m !! "coordinates"
       = Some (VDict (list_to_map [("lat", VFloat (137563 # 10000));
                                   ("lng", VFloat (1005018 # 10000))])).
Proof.
  eexists. eexists.
  split; [exact extract_shop_page|]. repeat split; reflexivity.
Qed.

End Scenarios.

(** * Further properties *)

(** ** Text helpers *)

Section TextFacts.

Lemma lstrip_head (s : string) :
  lstrip s = EmptyString
  \/ exists c r, lstrip s = String c r /\ isspace c = false.
Proof.
  induction s as [|c s IH]; simpl; [by left|].
  destruct (isspace c) eqn:E; [exact IH | right; eauto].
Qed.

Lemma rstrip_head (c : ascii) (s : string) :
  isspace c = false -> exists r, rstrip (String c s) = String c r.
Proof.
  intros E. simpl. destruct (rstrip s); [rewrite E|]; eauto.
Qed.

Lemma rstrip_idem (s : string) : rstrip (rstrip s) = rstrip s.
Proof.
  induction s as [|c s IH]; simpl; [reflexivity|].
  destruct (rstrip s) as [|c' r] eqn:E.
  - destruct (isspace c) eqn:Ec; simpl; [reflexivity | by rewrite Ec].
  - simpl in *. by rewrite IH.
Qed.

(** [s.strip().strip() == s.strip()] *)
Lemma strip_idem (s : string) : strip (strip s) = strip s.
Proof.
  unfold strip. destruct (lstrip_head s) as [->|(c & r & -> & Ec)]; [reflexivity|].
  destruct (rstrip_head c r Ec) as [r' Hr]. rewrite Hr.
  assert (lstrip (String c r') = String c r') as -> by (simpl; by rewrite Ec).
  rewrite <- Hr. apply rstrip_idem.
Qed.

Lemma str_truthy_ne (s : string) : str_truthy s = true <-> s <> EmptyString.
Proof. destruct s; simpl; split; congruence. Qed.

Lemma digit_value_bounds (c : ascii) :
  isdecimal c = true -> 0 <= Z.of_nat (nat_of_ascii c) - 48 <= 9.
Proof.
  unfold isdecimal. intros [H1 H2]%andb_prop.
  apply Nat.leb_le in H1, H2. lia.
Qed.

Lemma digits_value_nonneg (s : string) (acc : Z) :
  0 <= acc -> all_chars isdecimal s = true -> 0 <= digits_value acc s.
Proof.
  revert acc. induction s as [|c s IH]; simpl; intros acc Hacc; [done|].
  intros [Hc Hs]%andb_prop. apply IH; [|done].
  pose proof (digit_value_bounds c Hc). lia.
Qed.

End TextFacts.

(** ** The models, further *)

Section ModelExtras.
Context `{PF : PyFloat}.

(** X1.  [ProductItem(...)] accepts exactly the names that are not blank,
    whatever the other fields are; the item keeps the other fields as
    given and stores the trimmed name, which is not empty and has no
    surrounding white space left. *)
Theorem product_item_accepts_nonblank_names
    (n : string) (p : option float) (d : option string)
    (c : option (list string)) (i : option string) :
  ((exists it, ProductItem_new n p d c i = Ok it) <-> strip n <> EmptyString)
  /\ (forall it,
       ProductItem_new n p d c i = Ok it ->
       it = mkProductItem (strip n) p d c i
       /\ item_name it <> EmptyString
       /\ strip (item_name it) = item_name it).
Proof.
  unfold ProductItem_new, name_must_not_be_empty.
  destruct (str_truthy (strip n)) eqn:E; simpl.
  - apply str_truthy_ne in E. split; [split; eauto|].
    intros it [= <-]. simpl. split; [reflexivity|]. split; [exact E | apply strip_idem].
  - split.
    + split; [intros [it [=]] | intros H; by apply str_truthy_ne in H; congruence].
    + intros it [=].
Qed.

(** X2.  Validating a validated item again changes nothing: an item that
    [ProductItem(...)] returned is accepted, unchanged, when its own fields
    are passed back. *)
Theorem product_item_revalidates
    (n : string) (p : option float) (d : option string)
    (c : option (list string)) (i : option string) (it : ProductItem) :
  ProductItem_new n p d c i = Ok it ->
  ProductItem_new (item_name it) (item_price it) (item_description it)
                  (item_category it) (item_image it) = Ok it.
Proof.
  unfold ProductItem_new, name_must_not_be_empty.
  destruct (str_truthy (strip n)) eqn:E; simpl; [|discriminate].
  intros [= <-]. simpl. rewrite strip_idem, E. reflexivity.
Qed.

Lemma field_errors_fst {A} (f : string) (r : result A) :
  (field_errors f r).*1 `sublist_of` [f].
Proof.
  destruct r as [a|e]; simpl; [apply sublist_nil_l | reflexivity].
Qed.

Lemma elem_of_field_errors {A} (f g : string) (r : result A) :
  f ∈ (field_errors g r).*1 <-> f = g /\ is_ok r = false.
Proof.
  destruct r as [a|e]; simpl.
  - rewrite elem_of_nil. intuition congruence.
  - rewrite list_elem_of_singleton. intuition congruence.
Qed.

Lemma ShopData_violations_fields (d : ShopData) :
  (ShopData_violations d).*1
    `sublist_of` ["rating"; "reviews_count"; "images"; "products"; "location"].
Proof.
  unfold ShopData_violations. rewrite !fmap_app.
  change ["rating"; "reviews_count"; "images"; "products"; "location"]
    with (["rating"] ++ ["reviews_count"] ++ ["images"] ++ ["products"] ++ ["location"])%list.
  repeat apply sublist_app; apply field_errors_fst.
Qed.

(** X3.  When [ShopData(...)] refuses a record the exception is one
    [ValidationError] of the model whose entries are not empty, name only
    the fields rating, reviews_count, images, products and location, and
    name each failing field once, in that order: all the failing fields
    are reported together, not only the first. *)
Theorem shop_data_refusal_lists_fields (d : ShopData) (e : exn) :
  ShopData_new d = Raise e ->
  exists errs,
    e = ValidationError "ShopData" errs
    /\ errs = ShopData_violations d
    /\ errs <> []
    /\ errs.*1 `sublist_of` ["rating"; "reviews_count"; "images"; "products"; "location"]
    /\ NoDup errs.*1
    /\ (length errs <= 5)%nat
    /\ ("rating" ∈ errs.*1 <-> is_ok (check_rating (rating d)) = false)
    /\ ("reviews_count" ∈ errs.*1
        <-> is_ok (check_reviews_count (reviews_count d)) = false)
    /\ ("images" ∈ errs.*1 <-> is_ok (validate_images (images d)) = false)
    /\ ("products" ∈ errs.*1 <-> is_ok (validate_products (products d)) = false)
    /\ ("location" ∈ errs.*1 <-> is_ok (validate_location (location d)) = false).
Proof.
  unfold ShopData_new. destruct (ShopData_violations d) as [|x l] eqn:E; [discriminate|].
  intros [= <-]. exists (x :: l). rewrite <- E.
  pose proof (ShopData_violations_fields d) as Hs.
  split; [reflexivity|]. split; [reflexivity|]. split; [by rewrite E|].
  split; [exact Hs|].
  split; [|split; [|clear E Hs x l; unfold ShopData_violations;
                    rewrite !fmap_app, !elem_of_app, !elem_of_field_errors;
                    repeat split; intros; intuition congruence]].
  - refine (sublist_NoDup _ _ _ Hs).
    apply (bool_decide_unpack _). by vm_compute.

  - apply sublist_length in Hs. rewrite length_fmap in Hs. exact Hs.
Qed.

Lemma field_errors_ok {A} (f : string) (r : result A) (a : A) :
  r = Ok a -> field_errors f r = [].
Proof. by intros ->. Qed.

(** X4.  [ShopData(...)] accepts, unchanged, every record whose main image,
    categories, items, area and map are true values, whose rating is
    between 0 and 5 and whose reviews count is absent or not negative:
    the conditions of C9 are all that the model asks for. *)
Theorem shop_data_accepts_valid_records (d : ShopData) :
  dict_truthy (images d) "main" = true ->
  dict_truthy (products d) "categories" = true ->
  dict_truthy (products d) "items" = true ->
  dict_truthy (location d) "area" = true ->
  dict_truthy (location d) "map" = true ->
  float_leb (float_of_Z 0) (rating d) = true ->
  float_leb (rating d) (float_of_Z 5) = true ->
  (forall z, reviews_count d = Some z -> 0 <= z) ->
  ShopData_new d = Ok d.
Proof.
  intros Hm Hc Hi Ha Hmap Hge Hle Hrc.
  unfold ShopData_new, ShopData_violations.
  unfold check_rating, validate_images, validate_products, validate_location.
  rewrite Hm, Hc, Hi, Ha, Hmap, Hge, Hle. simpl.
  unfold check_reviews_count. destruct (reviews_count d) as [z|]; [|reflexivity].
  specialize (Hrc z eq_refl). apply Z.leb_le in Hrc. by rewrite Hrc.
Qed.

End ModelExtras.

(** ** The extraction path, further *)

Section ExtractionExtras.
Context `{PF : PyFloat}.

Ltac bind_inv H :=
  cbv zeta in H;
  repeat (let x := fresh "x" in
          let Hx := fresh "Hx" in
          apply bind_ok in H as (x & Hx & H); cbv zeta in H).

(** Everything that a successful [extract_from] went through. *)
Lemma extract_from_inv (raw : gmap string RawValue) (soup : Document) (d : ShopData) :
  extract_from raw soup = Ok d ->
  exists main gallery,
    _get_text raw "name" = Ok (name d)
    /\ _get_text raw "description" = Ok (description d)
    /\ _parse_special_offers (raw !! "special_offers") = Ok (default [] (special_offers d))
    /\ _get_image_url raw "images.main" = Ok main
    /\ _get_gallery_urls (default (RNodes []) (raw !! "images.gallery")) = Ok gallery
    /\ images d = list_to_map [("main", VStr main); ("gallery", VList (VStr <$> gallery))]
    /\ _process_products raw = Ok (products d)
    /\ _process_contact raw = Ok (contact d)
    /\ _process_location raw soup = Ok (location d)
    /\ ShopData_violations d = [].
Proof.
  intros H. unfold extract_from in H. bind_inv H.
  apply ShopData_new_ok in H as [-> Hv]. simpl. eauto 15.
Qed.

Lemma get_text_ok (data : gmap string RawValue) (field v : string) :
  _get_text data field = Ok v ->
  (exists s, v = strip s
             /\ (data !! field = Some (RText s)
                 \/ (data !! field = None /\ s = EmptyString)))
  /\ (v <> EmptyString \/ field ∈ optional_text_fields).
Proof.
  unfold _get_text. intros (w & Hw & H)%bind_ok.
  destruct (negb (str_truthy w) && negb (bool_decide (field ∈ optional_text_fields)))
    eqn:E; [discriminate|]. injection H as <-. split.
  - destruct (data !! field) as [[s|l]|]; [| discriminate |];
      injection Hw as <-; eauto.
  - apply andb_false_iff in E as [E|E]; apply negb_false_iff in E.
    + left. by apply str_truthy_ne.
    + right. by apply bool_decide_eq_true in E.
Qed.

(** X5.  [_get_text] returns the trimmed text of the entry (the empty text
    when the entry is absent); the result has no surrounding white space,
    and it is empty only for the four fields that the function lists as
    optional.  For any other field an absent or blank entry raises the
    [ValueError] that names the field. *)
Theorem get_text_trimmed_or_required
    (data : gmap string RawValue) (field : string) :
  (forall v,
     _get_text data field = Ok v ->
     strip v = v
     /\ (exists s, v = strip s
                   /\ (data !! field = Some (RText s)
                       \/ (data !! field = None /\ s = EmptyString)))
     /\ (v = EmptyString -> field ∈ optional_text_fields))
  /\ (field ∉ optional_text_fields ->
      (data !! field = None
       \/ exists s, data !! field = Some (RText s) /\ strip s = EmptyString) ->
      _get_text data field
        = Raise (ValueError ("Required field '" ++ field ++ "' is missing"))).
Proof.
  split.
  - intros v [(s & -> & Hs) Hne]%get_text_ok.
    split; [apply strip_idem|]. split; [eauto|].
    intros Hv. by destruct Hne.
  - intros Hf Hd. unfold _get_text.
    assert (bool_decide (field ∈ optional_text_fields) = false) as Hb
      by (by apply bool_decide_eq_false).
    destruct Hd as [->|(s & -> & Hs)]; simpl; [|rewrite Hs]; simpl; by rewrite Hb.
Qed.

Lemma omap_src_filter (l : list Node) :
  omap (fun img => if attr_truthy img "src"
                   then Some (get_default img "src" EmptyString) else None) l
  = List.filter str_truthy ((fun img => get_default img "src" EmptyString) <$> l).
Proof.
  induction l as [|x l IH]; [reflexivity|]. csimpl.
  unfold attr_truthy, get_default, get in *.
  destruct (node_attrs x !! "src") as [s|]; simpl; [destruct (str_truthy s)|];
    by rewrite IH.
Qed.

Lemma filter_length_le {A} (p : A -> bool) (l : list A) :
  (length (List.filter p l) <= length l)%nat.
Proof.
  induction l as [|x l IH]; simpl; [lia|]. destruct (p x); simpl; lia.
Qed.

(** X6.  The gallery of a list of matched images is the list of their
    [src] attributes, in document order, without the images whose [src] is
    absent or empty: no empty URL is ever listed, and the call does not
    raise. *)
Theorem gallery_urls_skip_missing_src (l : list Node) :
  exists urls,
    _get_gallery_urls (RNodes l) = Ok urls
    /\ urls = List.filter str_truthy
                ((fun img => get_default img "src" EmptyString) <$> l)
    /\ (EmptyString ∉ urls)
    /\ (length urls <= length l)%nat.
Proof.
  eexists. split; [simpl; by rewrite omap_src_filter|].
  split; [reflexivity|]. split.
  - intros Hin%list_elem_of_In. apply filter_In in Hin as [_ Hin]. discriminate Hin.
  - etransitivity; [apply filter_length_le|]. by rewrite length_fmap.
Qed.

Lemma get_image_url_ok (raw : gmap string RawValue) (field main : string) :
  _get_image_url raw field = Ok main ->
  (exists img rest,
     raw !! field = Some (RNodes (img :: rest))
     /\ main = get_default img "src" EmptyString)
  \/ (exists s, raw !! field = Some (RText s) /\ main = EmptyString).
Proof.
  unfold _get_image_url. destruct (raw !! field) as [[s|[|img rest]]|];
    simpl; try discriminate.
  - destruct (str_truthy s); simpl; [|discriminate]. intros [= <-]. eauto.
  - intros [= <-]. left. eauto.
Qed.

Lemma violations_nil (d : ShopData) :
  ShopData_violations d = [] ->
  dict_truthy (images d) "main" = true
  /\ dict_truthy (products d) "categories" = true
  /\ dict_truthy (products d) "items" = true.
Proof.
  intros H. apply violations_nil_valid in H. tauto.
Qed.

(** X7.  The main image of a returned record is the [src] attribute of
    the first element that the main-image query matched, and it is not
    empty: a first match without [src] (or with an empty one) never gives
    a record. *)
Theorem returned_main_image_is_first_src
    (raw : gmap string RawValue) (soup : Document) (d : ShopData) :
  extract_from raw soup = Ok d ->
  exists img rest src,
    raw !! "images.main" = Some (RNodes (img :: rest))
    /\ get img "src" = Some src
    /\ src <> EmptyString
    /\ images d !! "main" = Some (VStr src).
Proof.
  intros (main & gallery & _ & _ & _ & Hm & _ & Hi & _ & _ & _ & Hv)%extract_from_inv.
  apply violations_nil in Hv as (Ht & _). rewrite Hi in Ht.
  assert (str_truthy main = true) as Hmain by exact Ht.
  apply get_image_url_ok in Hm as [(img & rest & Hr & ->)|(s & _ & ->)];
    [|discriminate Hmain].
  exists img, rest. unfold get_default, get in *.
  destruct (node_attrs img !! "src") as [src|]; [|discriminate Hmain].
  exists src. split; [exact Hr|]. split; [reflexivity|].
  split; [by apply str_truthy_ne | by rewrite Hi].
Qed.

Lemma optional_text_fields_spec (field : string) :
  field ∈ optional_text_fields <->
  field = "reviews.count" \/ field = "verified" \/ field = "status.delivery"
  \/ field = "special_offers".
Proof.
  unfold optional_text_fields. rewrite !elem_of_cons, elem_of_nil. tauto.
Qed.

Lemma strip_empty_of (s : string) : strip s <> EmptyString -> s <> EmptyString.
Proof. intros H ->. by apply H. Qed.

Lemma get_text_required (raw : gmap string RawValue) (field v : string) :
  field ∉ optional_text_fields ->
  _get_text raw field = Ok v ->
  exists s,
    raw !! field = Some (RText s) /\ v = strip s /\ v <> EmptyString
    /\ raw_truthy (raw !! field) = true.
Proof.
  intros Hf [(s & -> & Hs) Hne]%get_text_ok.
  destruct Hne as [Hne|Hopt]; [|done].
  destruct Hs as [Hs|[_ ->]]; [|by destruct Hne].
  exists s. rewrite Hs. repeat split; [done|].
  simpl. apply str_truthy_ne. by apply strip_empty_of.
Qed.

Lemma process_location_inv (raw : gmap string RawValue) (soup : Document)
    (loc : gmap string pyval) :
  _process_location raw soup = Ok loc ->
  exists area el rest m,
    _get_text raw "location.area" = Ok area
    /\ raw !! "location.map" = Some (RNodes (el :: rest))
    /\ _process_map (RNodes (el :: rest)) soup = Ok m
    /\ m !! "element" = Some (VStr (node_html el))
    /\ loc = list_to_map [("area", VStr area); ("map", VDict m)].
Proof.
  unfold _process_location. intros (area & Ha & (m & Hm & [= <-])%bind_ok)%bind_ok.
  exists area. destruct (raw !! "location.map") as [[s|[|el rest]]|];
    simpl in Hm; try discriminate.
  - unfold _process_map in Hm. destruct s; simpl in Hm; discriminate.
  - exists el, rest, m. split; [done|]. split; [done|]. split; [done|].
    split; [|done]. rewrite process_map_cases in Hm.
    destruct (attr_truthy el "data-lat" && attr_truthy el "data-lng").
    + destruct (float_of_string _); [|discriminate].
      destruct (float_of_string _); [|discriminate]. by injection Hm as <-.
    + by injection Hm as <-.
Qed.

Lemma not_optional (field : string) :
  bool_decide (field ∈ optional_text_fields) = false -> field ∉ optional_text_fields.
Proof. by intros H%bool_decide_eq_false. Qed.

(** X8.  In a returned record the name, the description and the area are
    the trimmed texts of their entries, and none of them is empty. *)
Theorem returned_texts_trimmed_nonempty
    (raw : gmap string RawValue) (soup : Document) (d : ShopData) :
  extract_from raw soup = Ok d ->
  (exists s, raw !! "name" = Some (RText s)
             /\ name d = strip s /\ name d <> EmptyString)
  /\ (exists s, raw !! "description" = Some (RText s)
                /\ description d = strip s /\ description d <> EmptyString)
  /\ (exists s, raw !! "location.area" = Some (RText s)
                /\ location d !! "area" = Some (VStr (strip s))
                /\ strip s <> EmptyString).
Proof.
  intros (main & gallery & Hn & Hd & _ & _ & _ & _ & _ & _ & Hl & _)%extract_from_inv.
  apply get_text_required in Hn as (s1 & ? & ? & ? & _); [|by apply not_optional].
  apply get_text_required in Hd as (s2 & ? & ? & ? & _); [|by apply not_optional].
  apply process_location_inv in Hl as (area & el & rest & m & Ha & _ & _ & _ & ->).
  apply get_text_required in Ha as (s3 & ? & -> & ? & _); [|by apply not_optional].
  split; [eauto|]. split; [eauto|]. exists s3. done.
Qed.

Lemma location_assembly_core
    (raw : gmap string RawValue) (soup : Document) (loc : gmap string pyval) :
  _process_location raw soup = Ok loc ->
  validate_location loc = Ok loc
  /\ exists el rest m,
       raw !! "location.map" = Some (RNodes (el :: rest))
       /\ loc !! "map" = Some (VDict m)
       /\ m !! "element" = Some (VStr (node_html el)).
Proof.
  intros (area & el & rest & m & Ha & Hr & Hm & He & ->)%process_location_inv.
  apply get_text_required in Ha as (s & _ & -> & Hne & _); [|by apply not_optional].
  split; [|by eauto 10].
  unfold validate_location, dict_truthy.
  replace (_ !! "area") with (Some (VStr (strip s))) by reflexivity.
  replace (_ !! "map") with (Some (VDict m)) by reflexivity.
  simpl. apply str_truthy_ne in Hne. rewrite Hne. simpl.
  unfold dict_nonempty.
  destruct (size m) eqn:Hsz; [|reflexivity].
  apply map_size_empty_iff in Hsz. subst m. by rewrite lookup_empty in He.
Qed.

(** X9.  The location of an assembled record always passes the location
    check of the model: when [_process_location] returns, the area is not
    empty, the map entry is the dict of the first matched map element and
    [validate_location] accepts the result.  Without a map element (entry
    absent or an empty list) and with a usable area, it raises the
    [ValueError] "Map element is required". *)
Theorem location_assembly_satisfies_model
    (raw : gmap string RawValue) (soup : Document) :
  (forall loc,
     _process_location raw soup = Ok loc ->
     validate_location loc = Ok loc
     /\ exists el rest m,
          raw !! "location.map" = Some (RNodes (el :: rest))
          /\ loc !! "map" = Some (VDict m)
          /\ m !! "element" = Some (VStr (node_html el)))
  /\ (forall area,
       _get_text raw "location.area" = Ok area ->
       raw_truthy (raw !! "location.map") = false ->
       _process_location raw soup = Raise (ValueError "Map element is required")).
Proof.
  split.
  - intros loc Hl. exact (location_assembly_core raw soup loc Hl).
  - intros area Ha Hm. unfold _process_location. rewrite Ha. simpl.
    destruct (raw !! "location.map") as [[s|[|el rest]]|]; simpl in *;
      try reflexivity; try discriminate.
    destruct s; [reflexivity | discriminate].
Qed.

Lemma for_each_ok_Forall2 {A B} (f : A -> result B) (l : list A) (ys : list B) :
  for_each f l = Ok ys -> Forall2 (fun x y => f x = Ok y) l ys.
Proof.
  revert ys. induction l as [|x l IH]; simpl; intros ys.
  - intros [= <-]. constructor.
  - destruct (f x) as [y|e] eqn:E; simpl; [|discriminate].
    destruct (for_each f l) as [ys'|e]; simpl; [|discriminate].
    intros [= <-]. constructor; [exact E | by apply IH].
Qed.

Lemma process_products_inv (raw : gmap string RawValue) (prods : gmap string pyval) :
  _process_products raw = Ok prods ->
  exists cats items,
    prods = list_to_map [("categories", VList (VStr <$> cats));
                         ("items", VList (VDict <$> items))]
    /\ (cats = []
        \/ exists l, raw !! "products.categories" = Some (RNodes l)
                     /\ cats = get_text_strip <$> l)
    /\ (items = []
        \/ exists l, raw !! "products.items" = Some (RNodes l)
                     /\ Forall2 (fun c it => product_of_container c = Ok it) l items).
Proof.
  unfold _process_products.
  intros (cats & Hc & (items & Hi & [= <-])%bind_ok)%bind_ok.
  exists cats, items. split; [reflexivity|]. split.
  - destruct (raw !! "products.categories") as [[[|c s]|l]|];
      try discriminate; injection Hc as <-; eauto.
  - destruct (raw !! "products.items") as [[[|c s]|l]|]; try discriminate;
      try (injection Hi as <-; by left).
    right. exists l. split; [reflexivity | by apply for_each_ok_Forall2].
Qed.

Lemma container_item_name (c : Node) :
  has_name c = true ->
  exists n, container_item c !! "name" = Some (VStr n)
            /\ n <> EmptyString /\ strip n = n.
Proof.
  unfold has_name, container_item.
  destruct (select_one c (selector "products.item.name")) as [nd|]; [|discriminate].
  intros H. exists (strip (get_text_strip nd)).
  split; [reflexivity|]. split; [by apply str_truthy_ne | apply strip_idem].
Qed.

Lemma returned_products_core
    (raw : gmap string RawValue) (soup : Document) (d : ShopData) :
  extract_from raw soup = Ok d ->
  exists cat cats c cs items,
    raw !! "products.categories" = Some (RNodes (cat :: cats))
    /\ raw !! "products.items" = Some (RNodes (c :: cs))
    /\ products d !! "categories"
       = Some (VList (VStr <$> (get_text_strip <$> (cat :: cats))))
    /\ products d !! "items" = Some (VList (VDict <$> items))
    /\ Forall2 (fun c it => product_of_container c = Ok it) (c :: cs) items.
Proof.
  intros (main & gallery & _ & _ & _ & _ & _ & _ & Hp & _ & _ & Hv)%extract_from_inv.
  apply violations_nil in Hv as (_ & Hc & Hi).
  apply process_products_inv in Hp as (cats & items & Hd & Hcats & Hitems).
  rewrite Hd in Hc, Hi.
  assert (cats <> []) as Hcne by (intros ->; discriminate Hc).
  assert (items <> []) as Hine by (intros ->; discriminate Hi).
  destruct Hcats as [?|(lc & Hlc & ->)]; [done|].
  destruct Hitems as [?|(li & Hli & Hall)]; [done|].
  destruct lc as [|cat lc]; [done|].
  destruct li as [|c li]; [by inversion Hall; subst|].
  exists cat, lc, c, li, items. rewrite Hd.
  split; [done|]. split; [done|]. split; [reflexivity|]. split; [reflexivity|]. done.
Qed.

(** X10.  A returned record has at least one product category and at
    least one product: the category and product queries both matched
    something, the items are the [ProductItem] dicts of all the matched
    containers, in document order, and each of them has a name that is
    trimmed and not empty. *)
Theorem returned_products_nonempty
    (raw : gmap string RawValue) (soup : Document) (d : ShopData) :
  extract_from raw soup = Ok d ->
  exists cat cats c cs items,
    raw !! "products.categories" = Some (RNodes (cat :: cats))
    /\ raw !! "products.items" = Some (RNodes (c :: cs))
    /\ products d !! "categories"
       = Some (VList (VStr <$> (get_text_strip <$> (cat :: cats))))
    /\ products d !! "items" = Some (VList (VDict <$> items))
    /\ Forall2 (fun c it => product_of_container c = Ok it) (c :: cs) items
    /\ Forall (fun it => exists n, it !! "name" = Some (VStr n)
                                   /\ n <> EmptyString /\ strip n = n) items.
Proof.
  intros (cat & cats & c & cs & items & Hc & Hi & Hpc & Hpi & Hall)%returned_products_core.
  exists cat, cats, c, cs, items. repeat (split; [done|]).
  clear -Hall. induction Hall as [|x y l l' Hxy _ IH]; constructor; [|exact IH].
  apply product_of_container_ok_named in Hxy as [Hn ->].
  by apply container_item_name.
Qed.

Lemma parse_rating_ok_truthy (v : option RawValue) (r : float) :
  _parse_rating v = Ok r -> raw_truthy v = true.
Proof.
  unfold _parse_rating. destruct v as [v|]; [|discriminate].
  destruct (raw_truthy (Some v)); [done | discriminate].
Qed.

(** X11.  Every record that [extract_from] returns comes from raw data in
    which the eight entries name, description, rating, images.main,
    products.categories, products.items, location.area and location.map
    are all present and not empty: when one of them is missing, no record
    is returned. *)
Theorem returned_record_has_required_entries
    (raw : gmap string RawValue) (soup : Document) (d : ShopData) :
  extract_from raw soup = Ok d ->
  Forall (fun field => raw_truthy (raw !! field) = true)
    ["name"; "description"; "rating"; "images.main"; "products.categories";
     "products.items"; "location.area"; "location.map"].
Proof.
  intros H.
  pose proof (extract_from_inv raw soup d H)
    as (main & gallery & Hn & Hd & _ & Hm & _ & _ & _ & _ & Hl & _).
  apply get_text_required in Hn as (s1 & _ & _ & _ & T1); [|by apply not_optional].
  apply get_text_required in Hd as (s2 & _ & _ & _ & T2); [|by apply not_optional].
  apply process_location_inv in Hl as (area & el & rest' & ? & Ha & Hmap & _).
  apply get_text_required in Ha as (s3 & _ & _ & _ & T3); [|by apply not_optional].
  destruct (returned_products_core raw soup d H)
    as (cat & cats & c & cs & items & Hc & Hi & _).
  pose proof (extract_from_ok raw soup d H) as (_ & _ & _ & _ & Hr & _).
  apply parse_rating_ok_truthy in Hr.
  assert (raw_truthy (raw !! "images.main") = true) as Tm.
  { unfold _get_image_url in Hm. destruct (raw !! "images.main") as [v|]; [|discriminate].
    destruct (raw_truthy (Some v)); [done | discriminate]. }
  repeat constructor; rewrite ?Hc, ?Hi, ?Hmap; done.
Qed.

(** *** Which exceptions leave [extract_from] *)

Lemma for_each_raise_inv {A B} (f : A -> result B) (l : list A) (e : exn) :
  for_each f l = Raise e -> exists x, x ∈ l /\ f x = Raise e.
Proof.
  induction l as [|x l IH]; simpl; [discriminate|].
  destruct (f x) as [y|e'] eqn:E; simpl.
  - destruct (for_each f l) as [ys|e']; simpl; [discriminate|].
    intros [= <-]. destruct (IH eq_refl) as (z & Hz & Hf).
    exists z. split; [by constructor | done].
  - intros [= <-]. exists x. split; [constructor | done].
Qed.

Lemma get_text_raise raw field e : _get_text raw field = Raise e -> coercion_error e.
Proof.
  unfold _get_text, coercion_error.
  destruct (raw !! field) as [[s|l]|]; simpl;
    repeat case_match; try discriminate; intros [= <-]; eauto.
Qed.

Lemma first_get_raise_truthy v attr dflt e :
  raw_truthy (Some v) = true -> first_get v attr dflt = Raise e ->
  exists msg, e = AttributeError msg.
Proof.
  destruct v as [[|c s]|[|n l]]; simpl; try discriminate. intros _ [= <-]. eauto.
Qed.

Lemma parse_rating_raise v e : _parse_rating v = Raise e -> coercion_error e.
Proof.
  unfold _parse_rating, coercion_error. destruct v as [v|]; [|intros [= <-]; eauto].
  destruct (raw_truthy (Some v)) eqn:T; simpl; [|intros [= <-]; eauto].
  destruct (first_get v "alt" "0") as [alt|e'] eqn:E; simpl.
  - destruct (split alt) as [|tok toks]; simpl; [discriminate|].
    unfold py_float. destruct (float_of_string tok); simpl; discriminate.
  - destruct (first_get_raise_truthy _ _ _ _ T E) as [msg ->]. simpl.
    intros [= <-]. eauto.
Qed.

Lemma parse_special_offers_raise v e :
  _parse_special_offers v = Raise e -> coercion_error e.
Proof.
  unfold _parse_special_offers, coercion_error. destruct v as [[s|l]|]; simpl;
    try discriminate.
  - destruct (str_truthy s); simpl; [intros [= <-]; eauto | discriminate].
  - destruct l; simpl; discriminate.
Qed.

Lemma get_image_url_raise raw field e :
  _get_image_url raw field = Raise e -> coercion_error e.
Proof.
  unfold _get_image_url, coercion_error.
  destruct (raw !! field) as [[s|[|n l]]|]; simpl;
    try (intros [= <-]; by eauto).
  destruct (str_truthy s); simpl; [discriminate | intros [= <-]; eauto].
Qed.

Lemma get_gallery_urls_raise v e : _get_gallery_urls v = Raise e -> coercion_error e.
Proof.
  unfold coercion_error. destruct v as [[|c s]|l]; simpl; try discriminate.
  intros [= <-]. eauto.
Qed.

Lemma product_of_container_raise item e :
  product_of_container item = Raise e -> coercion_error e.
Proof.
  unfold coercion_error. destruct (has_name item) eqn:Hn.
  - by rewrite (product_of_container_named item Hn).
  - rewrite (product_of_container_unnamed item Hn).
    destruct (select_one _ _); intros [= <-]; eauto.
Qed.

Lemma process_products_raise raw e : _process_products raw = Raise e -> coercion_error e.
Proof.
  unfold _process_products.
  destruct (raw !! "products.categories") as [[[|c s]|l]|]; simpl;
    try (intros [= <-]; right; left; by eauto).
  all: destruct (raw !! "products.items") as [[[|c' s']|l']|]; simpl;
    try discriminate; try (intros [= <-]; right; left; by eauto).
  all: destruct (for_each product_of_container l') as [ys|e'] eqn:E; simpl;
    [discriminate|]; intros [= <-];
    apply for_each_raise_inv in E as (x & _ & Hx);
    by apply product_of_container_raise in Hx.
Qed.

Lemma contact_entry_raise raw field e :
  contact_entry raw field = Raise e -> coercion_error e.
Proof.
  unfold contact_entry, coercion_error. destruct (raw !! field) as [v|]; [|discriminate].
  destruct (raw_truthy (Some v)) eqn:T; [|discriminate].
  destruct (first_get v "href" EmptyString) as [h|e'] eqn:E; simpl; [discriminate|].
  destruct (first_get_raise_truthy _ _ _ _ T E) as [msg ->]. intros [= <-]. eauto.
Qed.

Lemma process_contact_raise raw e : _process_contact raw = Raise e -> coercion_error e.
Proof.
  unfold _process_contact.
  destruct (contact_entry raw "contact.website") as [w|e'] eqn:Ew; simpl.
  - destruct (contact_entry raw "contact.line") as [l|e'] eqn:El; simpl; [discriminate|].
    intros [= <-]. by apply contact_entry_raise in El.
  - intros [= <-]. by apply contact_entry_raise in Ew.
Qed.

Lemma float_attr_raise el attr e :
  float_attr el attr = Raise e -> exists msg, e = ValueError msg.
Proof.
  unfold float_attr, py_float. destruct (get el attr) as [s|]; [|discriminate].
  destruct (str_truthy s); [|discriminate].
  destruct (float_of_string s); simpl; [discriminate | intros [= <-]; eauto].
Qed.

Lemma process_map_raise v soup e : _process_map v soup = Raise e -> coercion_error e.
Proof.
  unfold _process_map, coercion_error.
  destruct v as [[|c s]|[|el rest]]; simpl; try (intros [= <-]; by eauto).
  destruct (attr_truthy el "data-lat" && attr_truthy el "data-lng"); simpl;
    [|discriminate].
  destruct (float_attr el "data-lat") as [la|e'] eqn:Ea; simpl.
  - destruct (float_attr el "data-lng") as [ln|e'] eqn:En; simpl; [discriminate|].
    intros [= <-]. apply float_attr_raise in En as [msg ->]. eauto.
  - intros [= <-]. apply float_attr_raise in Ea as [msg ->]. eauto.
Qed.

Lemma process_location_raise raw soup e :
  _process_location raw soup = Raise e -> coercion_error e.
Proof.
  unfold _process_location.
  destruct (_get_text raw "location.area") as [a|e'] eqn:Ea; simpl.
  - destruct (_process_map _ soup) as [m|e'] eqn:Em; simpl; [discriminate|].
    intros [= <-]. by apply process_map_raise in Em.
  - intros [= <-]. by apply get_text_raise in Ea.
Qed.

Lemma parse_reviews_count_passes_check v rc :
  _parse_reviews_count v = Ok rc -> check_reviews_count rc = Ok rc.
Proof.
  unfold _parse_reviews_count. destruct v as [v|]; [|by intros [= <-]].
  destruct (raw_truthy (Some v)); simpl; [|by intros [= <-]].
  destruct (first_get_text v) as [text|e]; simpl.
  - unfold py_int, int_of_digits.
    destruct (filter_chars isdigit text) as [|c s] eqn:E; simpl; [by intros [= <-]|].
    destruct (_ && _) eqn:Hd; simpl; [|by intros [= <-]].
    intros [= <-]. simpl.
    apply andb_prop in Hd as [Hd _].
    pose proof (digits_value_nonneg (String c s) 0 ltac:(lia) Hd) as Hz.
    simpl in Hz. apply Z.leb_le in Hz. by rewrite Hz.
  - destruct (_ || _); [by intros [= <-] | discriminate].
Qed.

(** X12.  The exceptions that leave [extract_from] are of three kinds
    only: a [ValueError] or an [AttributeError] raised while a field is
    coerced, the name error of a [ProductItem], and the [ValidationError]
    of [ShopData].  The last one can only be about the rating, the images
    or the products: the reviews count and the location that the assembly
    builds always pass their checks.  An [IndexError] never escapes. *)
Theorem extract_exception_kinds
    (raw : gmap string RawValue) (soup : Document) (e : exn) :
  extract_from raw soup = Raise e ->
  (exists msg, e = ValueError msg)
  \/ (exists msg, e = AttributeError msg)
  \/ e = ValidationError "ProductItem" [("name", "Product name cannot be empty")]
  \/ (exists errs,
        e = ValidationError "ShopData" errs
        /\ errs <> []
        /\ errs.*1 `sublist_of` ["rating"; "images"; "products"]).
Proof.
  assert (forall e', coercion_error e' ->
            (exists msg, e' = ValueError msg)
            \/ (exists msg, e' = AttributeError msg)
            \/ e' = ValidationError "ProductItem" [("name", "Product name cannot be empty")]
            \/ (exists errs,
                  e' = ValidationError "ShopData" errs
                  /\ errs <> []
                  /\ errs.*1 `sublist_of` ["rating"; "images"; "products"])) as Hco
    by (unfold coercion_error; intros e'; tauto).
  unfold extract_from. cbv zeta.
  destruct (_get_text raw "name") as [n|e0] eqn:E1; simpl;
    [|intros [= <-]; by apply get_text_raise, Hco in E1].
  destruct (_get_text raw "description") as [ds|e0] eqn:E2; simpl;
    [|intros [= <-]; by apply get_text_raise, Hco in E2].
  destruct (_parse_rating (raw !! "rating")) as [r|e0] eqn:E3; simpl;
    [|intros [= <-]; by apply parse_rating_raise, Hco in E3].
  destruct (_parse_reviews_count (raw !! "reviews.count")) as [rc|e0] eqn:E4; simpl;
    [|destruct (parse_reviews_count_total (raw !! "reviews.count")) as [? ?]; congruence].
  destruct (_parse_special_offers (raw !! "special_offers")) as [so|e0] eqn:E5; simpl;
    [|intros [= <-]; by apply parse_special_offers_raise, Hco in E5].
  destruct (_get_image_url raw "images.main") as [m|e0] eqn:E6; simpl;
    [|intros [= <-]; by apply get_image_url_raise, Hco in E6].
  destruct (_get_gallery_urls _) as [g|e0] eqn:E7; simpl;
    [|intros [= <-]; by apply get_gallery_urls_raise, Hco in E7].
  destruct (_process_products raw) as [p|e0] eqn:E8; simpl;
    [|intros [= <-]; by apply process_products_raise, Hco in E8].
  destruct (_process_contact raw) as [c|e0] eqn:E9; simpl;
    [|intros [= <-]; by apply process_contact_raise, Hco in E9].
  destruct (_process_location raw soup) as [l|e0] eqn:E10; simpl;
    [|intros [= <-]; by apply process_location_raise, Hco in E10].
  unfold ShopData_new.
  match goal with |- context [ShopData_violations ?d] =>
    destruct (ShopData_violations d) as [|x errs] eqn:Ev end; [discriminate|].
  intros [= <-]. right. right. right. exists (x :: errs).
  split; [reflexivity|]. split; [discriminate|].
  rewrite <- Ev. unfold ShopData_violations. simpl.
  rewrite (parse_reviews_count_passes_check _ _ E4).
  destruct (location_assembly_core raw soup l E10) as [-> _].
  simpl. rewrite !fmap_app.
  change ["rating"; "images"; "products"]
    with (["rating"] ++ ["images"] ++ ["products"] ++ [])%list.
  repeat apply sublist_app; try apply field_errors_fst. reflexivity.
Qed.

(** *** Optional fields *)

Lemma dict_nonempty_empty {A} : dict_nonempty (∅ : gmap string A) = false.
Proof. unfold dict_nonempty. by rewrite map_size_empty. Qed.

Lemma dict_nonempty_insert {A} (k : string) (v : A) (m : gmap string A) :
  dict_nonempty (<[k:=v]> m) = true.
Proof.
  unfold dict_nonempty. destruct (size (<[k:=v]> m)) eqn:E; [|reflexivity].
  apply map_size_empty_iff in E. by apply insert_non_empty in E.
Qed.

(** X13.  When the two contact entries are absent or lists of matched
    elements, [_process_contact] does not raise; it gives no contact
    exactly when neither query matched, and otherwise a dict that has the
    key website, respectively line, exactly when that query matched, with
    the [href] of the first match (the empty text when it has none). *)
Theorem contact_present_iff_matched (raw : gmap string RawValue) :
  nodes_or_absent (raw !! "contact.website") ->
  nodes_or_absent (raw !! "contact.line") ->
  exists c,
    _process_contact raw = Ok c
    /\ (c = None <-> raw_truthy (raw !! "contact.website") = false
                     /\ raw_truthy (raw !! "contact.line") = false)
    /\ (forall d, c = Some d ->
                  d !! "website" = first_href (raw !! "contact.website")
                  /\ d !! "line" = first_href (raw !! "contact.line")).
Proof.
  unfold _process_contact, contact_entry.
  intros [->|[[|w lw] ->]] [->|[[|l ll] ->]];
    cbn [raw_truthy first_get mbind result_bind bind first_href]; unfold id;
    rewrite ?dict_nonempty_insert, ?dict_nonempty_empty;
    (eexists; split; [reflexivity|]; split;
     [split; [intros H; try discriminate H; by split
             | intros [H1 H2]; try discriminate H1; try discriminate H2; reflexivity]
     | intros d H; try discriminate H; injection H as <-;
       rewrite ?lookup_insert_eq, ?lookup_insert_ne, ?lookup_empty by discriminate;
       by split]).
Qed.

(** X14.  When the entries of the reviews count, the special offers and
    the gallery are absent or lists of matched elements, none of their
    coercions raises; and [_parse_price] raises for no price element at
    all.  The optional fields cannot make an extraction fail. *)
Theorem optional_coercions_never_raise (raw : gmap string RawValue) :
  nodes_or_absent (raw !! "reviews.count") ->
  nodes_or_absent (raw !! "special_offers") ->
  nodes_or_absent (raw !! "images.gallery") ->
  is_ok (_parse_reviews_count (raw !! "reviews.count")) = true
  /\ is_ok (_parse_special_offers (raw !! "special_offers")) = true
  /\ is_ok (_get_gallery_urls (default (RNodes []) (raw !! "images.gallery"))) = true
  /\ (forall el, is_ok (_parse_price el) = true).
Proof.
  intros _ Ho Hg. split; [|split; [|split]].
  - by destruct (parse_reviews_count_total (raw !! "reviews.count")) as [rc ->].
  - destruct Ho as [->|[l ->]]; [reflexivity|]. by rewrite parse_special_offers_nodes.
  - by destruct Hg as [->|[l ->]].
  - intros el. by rewrite parse_price_eq.
Qed.

(** X15.  A product container gives an item exactly when its name query
    matches an element whose trimmed text is not empty: the price, the
    description, the categories and the image of the container never make
    it fail. *)
Theorem product_fails_only_for_name (item : Node) :
  (exists product, product_of_container item = Ok product)
  <-> (exists n, select_one item (selector "products.item.name") = Some n
                 /\ strip (get_text_strip n) <> EmptyString).
Proof.
  split.
  - intros [product [Hn _]%product_of_container_ok_named].
    unfold has_name in Hn. destruct (select_one _ _) as [n|]; [|discriminate].
    exists n. split; [reflexivity | by apply str_truthy_ne].
  - intros (n & Hs & Hne). exists (container_item item).
    apply product_of_container_named. unfold has_name. rewrite Hs.
    by apply str_truthy_ne.
Qed.

End ExtractionExtras.

(** ** The diagnostic harness, further *)

Section HarnessExtras.
Import VerifySelectors VerifyReport ReportNotions.

(** X16.  Taking the first element before a safe read changes nothing:
    the text and the attribute that the safe helpers read from an element
    or from a list of elements are those of the first element, and taking
    the first element twice is taking it once.  For [None], an empty list
    or an empty text the helpers give the empty text and no element. *)
Theorem safe_helpers_read_first_element (e : Element) (attr : string) :
  VerifyReport.get_text_safely (get_first_element e) = VerifyReport.get_text_safely e
  /\ get_attr_safely (get_first_element e) attr = get_attr_safely e attr
  /\ get_first_element (get_first_element e) = get_first_element e
  /\ (element_truthy e = false ->
      VerifyReport.get_text_safely e = EmptyString
      /\ get_attr_safely e attr = EmptyString
      /\ get_first_element e = ENone).
Proof.
  destruct e as [|n|[|n l]|[|c s]]; repeat split; try reflexivity; discriminate.
Qed.

Lemma loop_step_fields soup section field r e :
  let r' := loop_step soup section field r e in
  found r' = found r /\ count r' = count r /\ is_required r' = is_required r
  /\ validation_errors r' = validation_errors r
  /\ validation_warnings r' = validation_warnings r
  /\ extracted_value r' = extracted_value r
  /\ html_context r' <> None.
Proof.
  cbv zeta. unfold loop_step; simpl. repeat split; try reflexivity.
  destruct (html_context r) as [[|c s]|]; discriminate.
Qed.

Lemma loop_fields soup section field elements r :
  let r' := foldl (loop_step soup section field) r elements in
  found r' = found r /\ count r' = count r /\ is_required r' = is_required r
  /\ validation_errors r' = validation_errors r
  /\ validation_warnings r' = validation_warnings r
  /\ extracted_value r' = extracted_value r
  /\ (elements = [] -> html_context r' = html_context r)
  /\ (elements <> [] -> html_context r' <> None).
Proof.
  cbv zeta. revert r. induction elements as [|e l IH]; intros r; simpl.
  - repeat split; try reflexivity; done.
  - destruct (IH (loop_step soup section field r e))
      as (H1 & H2 & H3 & H4 & H5 & H6 & H7 & H8).
    destruct (loop_step_fields soup section field r e)
      as (G1 & G2 & G3 & G4 & G5 & G6 & G7).
    cbv zeta in *. rewrite H1, H2, H3, H4, H5, H6.
    repeat split; try assumption; try discriminate.
    intros _. destruct l as [|e' l']; [by rewrite H7 | by apply H8].
Qed.

Lemma run_validation_fields config elements r :
  let r' := run_validation config elements r in
  found r' = found r /\ count r' = count r /\ is_required r' = is_required r
  /\ samples r' = samples r /\ extracted_value r' = extracted_value r
  /\ html_context r' = html_context r.
Proof.
  cbv zeta. unfold run_validation.
  destruct (cfg_validation config) as [v|]; [|done].
  destruct elements as [|first rest]; [done|].
  destruct (v first) as [[|]|e]; [done| |done].
  by destruct (cfg_required config).
Qed.

Lemma validate_selector_sampled soup section field config :
  validate_selector soup section field config
  = run_validation config (soup_select soup (cfg_selector config))
      (sampled soup section field config).
Proof.
  unfold validate_selector, sampled. cbv zeta. by destruct (cfg_extract config).
Qed.

Lemma sampled_fields soup section field config :
  let elements := soup_select soup (cfg_selector config) in
  let r := sampled soup section field config in
  found r = (0 <? length elements)%nat
  /\ count r = length elements
  /\ is_required r = cfg_required config
  /\ validation_errors r = []
  /\ validation_warnings r = []
  /\ (elements = [] -> html_context r = None)
  /\ (elements <> [] -> html_context r <> None).
Proof.
  cbv zeta. unfold sampled. cbv zeta.
  match goal with |- context [foldl ?f ?r0 ?l] =>
    destruct (loop_fields soup section field l r0)
      as (H1 & H2 & H3 & H4 & H5 & _ & H7 & H8) end.
  cbv zeta in *. rewrite H1, H2, H3, H4, H5.
  destruct (cfg_extract config); simpl in *;
    (repeat split; try reflexivity;
     [intros E; rewrite E in *; by rewrite H7
     |intros E; apply H8; by destruct (soup_select soup (cfg_selector config))]).
Qed.

(** X17.  The result of [validate_selector] counts the matches of the
    selector, is found exactly when there is a match and carries the
    required flag of the entry.  When nothing matches, the result is empty
    (no sample, no context, no error, no warning): the predicate of the
    entry is not run, so a required field without match has no validation
    error.  When something matches, the context is set. *)
Theorem validate_selector_counts_matches
    (soup : Soup) (section field : string) (config : SelectorConfig) :
  let elements := soup_select soup (cfg_selector config) in
  let r := validate_selector soup section field config in
  count r = length elements
  /\ (found r = true <-> elements <> [])
  /\ is_required r = cfg_required config
  /\ (elements = [] ->
      samples r = [] /\ html_context r = None
      /\ validation_errors r = [] /\ validation_warnings r = [])
  /\ (elements <> [] -> html_context r <> None).
Proof.
  cbv zeta. rewrite validate_selector_sampled.
  destruct (run_validation_fields config (soup_select soup (cfg_selector config))
              (sampled soup section field config)) as (H1 & H2 & H3 & H4 & _ & H6).
  destruct (sampled_fields soup section field config)
    as (G1 & G2 & G3 & G4 & G5 & G6 & G7).
  cbv zeta in *. rewrite H1, H2, H3, H6, G1, G2, G3.
  split; [reflexivity|]. split.
  { destruct (soup_select soup (cfg_selector config)); simpl; split; done. }
  split; [reflexivity|]. split; [|exact G7].
  intros E. split.
  { rewrite <- validate_selector_sampled, samples_validate_selector. cbv zeta.
    by rewrite E. }
  split; [by apply G6|].
  unfold run_validation. rewrite E.
  destruct (cfg_validation config); by rewrite G4, G5.
Qed.

(** X18.  A result carries at most one validation message.  A warning is
    only ever given for an optional entry whose predicate said no, and
    then there is no error; an error is given for a required entry whose
    predicate said no, or for any entry whose predicate raised.  When the
    predicate says yes there is no message. *)
Theorem validation_message_severity
    (soup : Soup) (section field : string) (config : SelectorConfig) :
  let elements := soup_select soup (cfg_selector config) in
  let r := validate_selector soup section field config in
  (length (validation_errors r) + length (validation_warnings r) <= 1)%nat
  /\ (validation_warnings r <> [] ->
      cfg_required config = false /\ validation_errors r = []
      /\ exists v first rest,
           cfg_validation config = Some v /\ elements = first :: rest
           /\ v first = Ok false)
  /\ (validation_errors r <> [] ->
      exists v first rest,
        cfg_validation config = Some v /\ elements = first :: rest
        /\ ((cfg_required config = true /\ v first = Ok false)
            \/ exists e, v first = Raise e))
  /\ (forall v first rest,
       cfg_validation config = Some v -> elements = first :: rest ->
       v first = Ok true ->
       validation_errors r = [] /\ validation_warnings r = []).
Proof.
  cbv zeta. rewrite validate_selector_sampled.
  destruct (sampled_fields soup section field config)
    as (_ & _ & _ & G4 & G5 & _).
  cbv zeta in G4, G5. unfold run_validation.
  destruct (cfg_validation config) as [v|] eqn:Ev;
    [|rewrite G4, G5; simpl; repeat split; try lia; try done].
  destruct (soup_select soup (cfg_selector config)) as [|first rest] eqn:Ee;
    [rewrite G4, G5; simpl; repeat split; try lia; try done|].
  destruct (v first) as [[|]|e] eqn:Ef.
  - rewrite G4, G5. simpl. repeat split; try lia; try done.
  - destruct (cfg_required config) eqn:Er; simpl; rewrite G4, G5; simpl.
    + split; [lia|]. split; [done|]. split; [|intros ? ? ? [= <-] [= <- <-]; congruence].
      intros _. exists v, first, rest. eauto.
    + split; [lia|]. split; [|split; [done|intros ? ? ? [= <-] [= <- <-]; congruence]].
      intros _. repeat split; try done. exists v, first, rest. eauto.
  - simpl. rewrite G4, G5. simpl.
    split; [lia|]. split; [done|]. split; [|intros ? ? ? [= <-] [= <- <-]; congruence].
    intros _. exists v, first, rest. eauto.
Qed.

Lemma string_length_append (s1 s2 : string) :
  String.length (s1 ++ s2) = (String.length s1 + String.length s2)%nat.
Proof. induction s1 as [|c s1 IH]; simpl; [reflexivity | by rewrite IH]. Qed.

Lemma substring_length_le (s : string) (n m : nat) :
  (String.length (String.substring n m s) <= m)%nat.
Proof.
  revert n m. induction s as [|c s IH]; intros [|n] [|m]; simpl; try lia.
  - specialize (IH 0%nat m). lia.
  - apply (IH n 0%nat).
  - apply (IH n (S m)).
Qed.

(** X19.  The context that [get_html_context] returns is bounded: it is
    never longer than the markup of the element plus 200 characters on
    each side and the two ellipses.  When the markup of the element does
    not occur in the page, the context is the markup of the element. *)
Theorem html_context_bounded (soup : Soup) (element : Node) :
  (String.length (get_html_context soup element)
   <= String.length (node_html element) + 406)%nat
  /\ (String.index 0 (node_html element) (soup_html soup) = None ->
      get_html_context soup element = node_html element).
Proof.
  unfold get_html_context. cbv zeta.
  destruct (String.index 0 (node_html element) (soup_html soup)) as [pos|];
    [|split; [lia | reflexivity]].
  split; [|discriminate].
  set (start := Nat.max 0 (pos - 200)).
  set (end_ := Nat.min (String.length (soup_html soup))
                       (pos + String.length (node_html element) + 200)).
  pose proof (substring_length_le (soup_html soup) start (end_ - start)) as Hs.
  assert (end_ - start <= String.length (node_html element) + 400)%nat as Hw
    by (unfold start, end_; lia).
  destruct (0 <? start)%nat, (end_ <? String.length (soup_html soup))%nat;
    rewrite ?string_length_append; simpl; rewrite ?string_length_append; simpl; lia.
Qed.

(** *** The report *)

Lemma tally_field_effect (section : string) (t : Tally)
    (field : string) (r : SelectorValidationResult) :
  let t' := tally_field section t (field, r) in
  t_missing_required t'
    = (t_missing_required t
       ++ (if is_missing r then [entry_name (section, field, r)] else []))%list
  /\ t_optional_present t'
     = (t_optional_present t + (if is_present r then 1 else 0))%nat
  /\ t_total_optional t'
     = (t_total_optional t + (if is_required r then 0 else 1))%nat
  /\ t_validation_errors t'
     = (t_validation_errors t ++ (if is_missing r then validation_errors r else []))%list
  /\ t_validation_warnings t'
     = (t_validation_warnings t
        ++ (if is_required r then [] else validation_warnings r))%list.
Proof.
  cbv zeta. unfold tally_field, is_missing, is_present, entry_name.
  destruct (is_required r); simpl.
  - destruct (negb (found r) || _); simpl; rewrite ?app_nil_r;
      repeat split; try reflexivity; lia.
  - destruct (found r), (validation_warnings r); simpl; rewrite ?app_nil_r;
      repeat split; try reflexivity; lia.
Qed.

Lemma tally_eq (t t' : Tally) :
  t_missing_required t = t_missing_required t' ->
  t_optional_present t = t_optional_present t' ->
  t_total_optional t = t_total_optional t' ->
  t_validation_errors t = t_validation_errors t' ->
  t_validation_warnings t = t_validation_warnings t' ->
  t = t'.
Proof. destruct t, t'; simpl; congruence. Qed.

Lemma tally_of_nil t : tally_of [] t = t.
Proof.
  apply tally_eq; unfold tally_of; simpl; rewrite ?app_nil_r; try reflexivity; lia.
Qed.

Lemma tally_of_cons section field r entries t :
  tally_of ((section, field, r) :: entries) t
  = tally_of entries (tally_field section t (field, r)).
Proof.
  destruct (tally_field_effect section t field r) as (H1 & H2 & H3 & H4 & H5).
  cbv zeta in *.
  apply tally_eq; unfold tally_of; simpl List.filter; cbn [snd];
    rewrite ?H1, ?H2, ?H3, ?H4, ?H5.
  - destruct (is_missing r); simpl; by rewrite <- ?app_assoc.
  - destruct (is_present r); simpl; lia.
  - destruct (is_required r); simpl; lia.
  - destruct (is_missing r); simpl; rewrite <- ?app_assoc, ?app_nil_r; reflexivity.
  - destruct (is_required r); simpl; rewrite <- ?app_assoc, ?app_nil_r; reflexivity.
Qed.

Lemma tally_of_app l1 l2 t : tally_of (l1 ++ l2) t = tally_of l2 (tally_of l1 t).
Proof.
  revert t. induction l1 as [|[[s f] r] l1 IH]; intros t; simpl.
  - by rewrite tally_of_nil.
  - by rewrite !tally_of_cons, IH.
Qed.

Lemma fold_tally_field section fields t :
  fold_left (tally_field section) fields t
  = tally_of (List.map (fun fr : string * SelectorValidationResult =>
                          (section, fr.1, fr.2)) fields) t.
Proof.
  revert t. induction fields as [|[f r] l IH]; intros t; simpl.
  - by rewrite tally_of_nil.
  - by rewrite IH, tally_of_cons.
Qed.

Lemma process_results_tally results t :
  process_results results t = tally_of (flat_results results) t.
Proof.
  unfold process_results, flat_results. revert t.
  induction results as [|[s fs] l IH]; intros t; simpl.
  - by rewrite tally_of_nil.
  - by rewrite IH, fold_tally_field, tally_of_app.
Qed.

Lemma filter_length_mono {A} (p q : A -> bool) (l : list A) :
  (forall x, p x = true -> q x = true) ->
  (length (List.filter p l) <= length (List.filter q l))%nat.
Proof.
  intros H. induction l as [|x l IH]; simpl; [lia|].
  destruct (p x) eqn:E; [rewrite (H x E); simpl; lia|].
  destruct (q x); simpl; lia.
Qed.

Lemma filter_length_bound {A} (p : A -> bool) (l : list A) :
  (length (List.filter p l) <= length l)%nat.
Proof. induction l as [|x l IH]; simpl; [lia|]. destruct (p x); simpl; lia. Qed.

(** X20.  The two loops of "Process results" compute, over the results in
    order: the names section.field of the required fields that were not
    found or have a validation error; the number of optional fields; the
    number of optional fields that were found without warning, which is
    at most the number of optional fields; the validation errors of the
    missing required fields only (an error of an optional field is not
    reported); and the warnings of the optional fields only. *)
Theorem process_results_comprehension
    (results : list (string * list (string * SelectorValidationResult))) :
  let entries := flat_results results in
  let t := process_results results (mkTally [] 0 0 [] []) in
  t_missing_required t = entry_name <$> List.filter (fun e => is_missing e.2) entries
  /\ t_total_optional t
     = length (List.filter (fun e => negb (is_required e.2)) entries)
  /\ t_optional_present t = length (List.filter (fun e => is_present e.2) entries)
  /\ (t_optional_present t <= t_total_optional t)%nat
  /\ t_validation_errors t
     = List.concat ((fun e => validation_errors e.2)
                      <$> List.filter (fun e => is_missing e.2) entries)
  /\ t_validation_warnings t
     = List.concat ((fun e => validation_warnings e.2)
                      <$> List.filter (fun e => negb (is_required e.2)) entries).
Proof.
  cbv zeta. rewrite process_results_tally. unfold tally_of. simpl.
  repeat split; try reflexivity.
  apply filter_length_mono. intros [[s f] r]. unfold is_present. simpl.
  destruct (is_required r); simpl; [discriminate | done].
Qed.

Lemma flat_results_validate_all soup table :
  flat_results (validate_all soup table)
  = List.map (fun e : string * string * SelectorConfig =>
                (e.1.1, e.1.2, validate_selector soup e.1.1 e.1.2 e.2))
             (flat_table table).
Proof.
  unfold flat_results, flat_table, validate_all, validate_section.
  induction table as [|[s fs] l IH]; simpl; [reflexivity|].
  rewrite List.map_app, <- IH. f_equal.
  rewrite !List.map_map. reflexivity.
Qed.

Lemma validate_selector_flags soup section field config :
  let r := validate_selector soup section field config in
  found r = (0 <? length (soup_select soup (cfg_selector config)))%nat
  /\ is_required r = cfg_required config.
Proof.
  cbv zeta. rewrite validate_selector_sampled.
  destruct (run_validation_fields config (soup_select soup (cfg_selector config))
              (sampled soup section field config)) as (H1 & _ & H3 & _).
  destruct (sampled_fields soup section field config) as (G1 & _ & G3 & _).
  cbv zeta in *. by rewrite H1, H3, G1, G3.
Qed.

Lemma is_missing_validate soup section field config :
  is_missing (validate_selector soup section field config) = true
  <-> cfg_required config = true
      /\ (soup_select soup (cfg_selector config) = []
          \/ validation_errors (validate_selector soup section field config) <> []).
Proof.
  unfold is_missing.
  destruct (validate_selector_flags soup section field config) as [-> ->].
  destruct (cfg_required config); simpl; [|split; [discriminate | by intros [? _]]].
  destruct (soup_select soup (cfg_selector config)) as [|x l]; simpl.
  - split; [by eauto | done].
  - destruct (validation_errors _); simpl; split; try done.
    + intros [_ [?|?]]; done.
    + intros _. split; [done | by right].
Qed.

(** X21.  The report of a run over a table lists a name as missing
    exactly when it is the name section.field of a required entry of the
    table whose selector matched nothing on the page or whose validation
    gave an error. *)
Theorem missing_required_iff
    (table : list (string * list (string * SelectorConfig)))
    (url : string) (soup : Soup) (name : string) :
  name ∈ missing_required (verify_selectors_with table url soup)
  <-> exists section field config,
        In (section, field, config) (flat_table table)
        /\ name = (section ++ "." ++ field)%string
        /\ cfg_required config = true
        /\ (soup_select soup (cfg_selector config) = []
            \/ validation_errors (validate_selector soup section field config) <> []).
Proof.
  unfold verify_selectors_with. cbv zeta. simpl.
  rewrite process_results_tally. unfold tally_of. simpl.
  rewrite flat_results_validate_all, list_elem_of_fmap. split.
  - intros ([[s f] r] & -> & Hin%list_elem_of_In).
    apply filter_In in Hin as [Hin Hm]. simpl in Hm.
    apply in_map_iff in Hin as ([[s' f'] c] & [= <- <- <-] & Hin).
    simpl in *. apply is_missing_validate in Hm as [Hr Hc].
    exists s', f', c. done.
  - intros (s & f & c & Hin & -> & Hr & Hc).
    exists (s, f, validate_selector soup s f c). split; [reflexivity|].
    apply list_elem_of_In, filter_In. split.
    + apply in_map_iff. exists (s, f, c). done.
    + simpl. by apply is_missing_validate.
Qed.

Lemma filter_map_flags {A B} (p : B -> bool) (q : A -> bool) (f : A -> B) (l : list A) :
  (forall x, p (f x) = q x) ->
  List.filter p (List.map f l) = List.map f (List.filter q l).
Proof.
  intros H. induction l as [|x l IH]; simpl; [reflexivity|].
  rewrite H. destruct (q x); simpl; by rewrite IH.
Qed.

Lemma total_optional_table table url soup :
  total_optional (verify_selectors_with table url soup)
  = length (List.filter (fun e : string * string * SelectorConfig =>
                           negb (cfg_required e.2)) (flat_table table)).
Proof.
  unfold verify_selectors_with. cbv zeta. simpl.
  rewrite process_results_tally. unfold tally_of. simpl.
  rewrite flat_results_validate_all.
  rewrite (filter_map_flags _ (fun e : string * string * SelectorConfig =>
                                 negb (cfg_required e.2))).
  - by rewrite length_map.
  - intros [[sec f] c]. simpl.
    by destruct (validate_selector_flags soup sec f c) as [_ ->].
Qed.

Lemma report_lists table url soup :
  let report := verify_selectors_with table url soup in
  (optional_present report <= total_optional report)%nat
  /\ missing_required report
     `sublist_of`
     (entry_name <$> List.filter (fun e : string * string * SelectorConfig =>
                                    cfg_required e.2) (flat_table table)).
Proof.
  unfold verify_selectors_with. cbv zeta. simpl.
  rewrite process_results_tally. unfold tally_of. simpl. split.
  - apply filter_length_mono. intros [[sec f] r]. unfold is_present. simpl.
    destruct (is_required r); simpl; [discriminate | done].
  - rewrite flat_results_validate_all.
    rewrite (filter_map_flags _
               (fun e : string * string * SelectorConfig =>
                  is_missing (validate_selector soup e.1.1 e.1.2 e.2)))
      by (by intros [[sec f] c]).
    rewrite <- list_fmap_compose.
    apply (fmap_sublist entry_name).
    generalize (flat_table table). intros l.
    induction l as [|[[sec f] c] l IH]; simpl; [constructor|].
    unfold is_missing at 1.
    destruct (validate_selector_flags soup sec f c) as [_ ->].
    destruct (cfg_required c); simpl.
    + destruct (_ || _); [by constructor | by apply sublist_cons].
    + exact IH.
Qed.

Lemma table_optional_count :
  length (List.filter (fun e : string * string * SelectorConfig =>
                         negb (cfg_required e.2)) (flat_table SELECTORS_TO_TEST))
  = 11%nat.
Proof. reflexivity. Qed.

Lemma table_required_names :
  entry_name <$> List.filter (fun e : string * string * SelectorConfig =>
                                cfg_required e.2) (flat_table SELECTORS_TO_TEST)
  = ["basic.name"; "basic.description"; "basic.rating"; "images.main";
     "products.categories"; "products.items"; "products.item.name";
     "location.area"; "location.coordinates"; "location.map_provider";
     "location.place_name"; "location.map"].
Proof. reflexivity. Qed.

(** X22.  For every page the report of the program's table counts 11
    optional fields, of which at most 11 are present, and its missing
    required fields are some of the 12 required names of the table, in
    the order of the table and without repetition. *)
Theorem report_counts (url : string) (soup : Soup) :
  let report := verify_selectors_from url soup in
  total_optional report = 11%nat
  /\ (optional_present report <= 11)%nat
  /\ missing_required report
     `sublist_of`
     ["basic.name"; "basic.description"; "basic.rating"; "images.main";
      "products.categories"; "products.items"; "products.item.name";
      "location.area"; "location.coordinates"; "location.map_provider";
      "location.place_name"; "location.map"]
  /\ (length (missing_required report) <= 12)%nat
  /\ NoDup (missing_required report).
Proof.
  cbv zeta. unfold verify_selectors_from.
  pose proof (total_optional_table SELECTORS_TO_TEST url soup) as Ht.
  rewrite table_optional_count in Ht.
  destruct (report_lists SELECTORS_TO_TEST url soup) as [Hp Hsub].
  cbv zeta in Hp, Hsub. rewrite Ht in Hp. rewrite table_required_names in Hsub.
  split; [exact Ht|]. split; [exact Hp|]. split; [exact Hsub|]. split.
  - apply sublist_length in Hsub. exact Hsub.
  - eapply sublist_NoDup; [|exact Hsub].
    apply (bool_decide_unpack _). by vm_compute.
Qed.

Lemma no_match_result soup section field config :
  soup_select soup (cfg_selector config) = [] ->
  let r := validate_selector soup section field config in
  is_missing r = cfg_required config /\ is_present r = false
  /\ validation_errors r = [] /\ validation_warnings r = [].
Proof.
  intros E. cbv zeta.
  destruct (validate_selector_flags soup section field config) as [Hf Hr].
  assert (validation_errors (validate_selector soup section field config) = []
          /\ validation_warnings (validate_selector soup section field config) = [])
    as [He Hw].
  { rewrite validate_selector_sampled. unfold run_validation. rewrite E.
    destruct (sampled_fields soup section field config) as (_ & _ & _ & G4 & G5 & _).
    cbv zeta in G4, G5. by destruct (cfg_validation config). }
  unfold is_missing, is_present. rewrite Hf, Hr, He, Hw, E. simpl.
  by destruct (cfg_required config).
Qed.

Lemma no_match_report table url soup :
  (forall q, soup_select soup q = []) ->
  let report := verify_selectors_with table url soup in
  missing_required report
    = entry_name <$> List.filter (fun e : string * string * SelectorConfig =>
                                    cfg_required e.2) (flat_table table)
  /\ optional_present report = 0%nat
  /\ report_validation_errors report = []
  /\ report_validation_warnings report = ["No Google Maps links found"].
Proof.
  intros Hno. unfold verify_selectors_with. cbv zeta. simpl.
  rewrite process_results_tally. unfold tally_of. simpl.
  rewrite flat_results_validate_all.
  unfold map_links_warning. rewrite !Hno.
  generalize (flat_table table). intros l.
  induction l as [|[[sec f] c] l (IH1 & IH2 & IH3 & IH4)]; simpl; [done|].
  destruct (no_match_result soup sec f c (Hno _)) as (Hm & Hp & He & Hw).
  cbv zeta in *. rewrite Hm, Hp.
  destruct (validate_selector_flags soup sec f c) as [_ ->].
  destruct (cfg_required c); simpl; rewrite ?He, ?Hw; simpl.
  - split; [unfold entry_name at 1 3; simpl; f_equal; exact IH1|].
    split; [exact IH2|]. split; [exact IH3 | exact IH4].
  - split; [exact IH1|]. split; [exact IH2|]. split; [exact IH3 | exact IH4].
Qed.

(** X23.  On a page where no selector matches anything, the report lists
    all 12 required fields of the table as missing, in the order of the
    table, and no optional field as present; its validation errors are
    empty, since no predicate is run, and its only warning is the one
    about the map links. *)
Theorem report_of_page_without_match (url : string) (soup : Soup) :
  (forall q, soup_select soup q = []) ->
  let report := verify_selectors_from url soup in
  missing_required report
    = ["basic.name"; "basic.description"; "basic.rating"; "images.main";
       "products.categories"; "products.items"; "products.item.name";
       "location.area"; "location.coordinates"; "location.map_provider";
       "location.place_name"; "location.map"]
  /\ optional_present report = 0%nat
  /\ report_validation_errors report = []
  /\ report_validation_warnings report = ["No Google Maps links found"].
Proof.
  intros Hno. cbv zeta. unfold verify_selectors_from.
  destruct (no_match_report SELECTORS_TO_TEST url soup Hno) as (H1 & H2 & H3 & H4).
  cbv zeta in *. rewrite table_required_names in H1. done.
Qed.

(** X24.  The harness tests every selector of the extraction strategy:
    each field of the strategy's selector table has an entry with the same
    selector in [SELECTORS_TO_TEST], under the name section.field or, in
    the section basic, under the field name alone. *)
Theorem harness_covers_strategy_selectors (field sel : string) :
  selectors !! field = Some sel ->
  exists section name config,
    In (section, name, config) (flat_table SELECTORS_TO_TEST)
    /\ cfg_selector config = sel
    /\ ((section = "basic" /\ field = name)
        \/ field = (section ++ "." ++ name)%string).
Proof.
  intros H%elem_of_map_to_list%list_elem_of_In.
  assert (forallb
            (fun kv : string * string =>
               existsb
                 (fun e : string * string * SelectorConfig =>
                    String.eqb (cfg_selector e.2) kv.2
                    && ((String.eqb e.1.1 "basic" && String.eqb kv.1 e.1.2)
                        || String.eqb kv.1 (entry_name e)))
                 (flat_table SELECTORS_TO_TEST))
            (map_to_list selectors) = true) as Hall by (by vm_compute).
  rewrite forallb_forall in Hall. apply Hall in H.
  apply existsb_exists in H as ([[section name] config] & Hin & Hc).
  simpl in Hc. apply andb_prop in Hc as [Hs Hn]. apply String.eqb_eq in Hs.
  exists section, name, config. split; [exact Hin|]. split; [exact Hs|].
  apply orb_prop in Hn as [Hn|Hn].
  - apply andb_prop in Hn as [H1 H2]. apply String.eqb_eq in H1, H2. by left.
  - apply String.eqb_eq in Hn. by right.
Qed.

End HarnessExtras.

(** ** Discovery of shop pages *)

Section DiscoveryFacts.
Import VerifySelectors VerifyReport Discovery.

Lemma substring_append_skip (p h : string) (k m : nat) :
  String.substring (String.length p + k) m (p ++ h) = String.substring k m h.
Proof. induction p as [|c p IH]; simpl; [reflexivity | exact IH]. Qed.

(** [needle in h] gives [needle in p + h]. *)
Lemma str_in_append (needle p h : string) :
  str_in needle h = true -> str_in needle (p ++ h) = true.
Proof.
  unfold str_in.
  destruct (String.index 0 needle h) as [pos|] eqn:Eh; [|discriminate]. intros _.
  destruct (String.index 0 needle (p ++ h)) as [pos'|] eqn:Ep; [reflexivity|].
  apply index_correct1 in Eh.
  destruct needle as [|c needle].
  - destruct (p ++ h)%string; simpl in Ep; discriminate.
  - exfalso.
    apply (index_correct3 0 (String.length p + pos) _ _ Ep);
      [discriminate | lia |].
    by rewrite substring_append_skip.
Qed.

Lemma shop_urls_elem (links : list Node) (acc : gset string) (u : string) :
  u ∈ foldl (fun (urls : gset string) link =>
               match shop_url_of_link link with
               | Some full_url => {[ full_url ]} ∪ urls
               | None => urls
               end) acc links
  <-> u ∈ acc \/ exists link, link ∈ links /\ shop_url_of_link link = Some u.
Proof.
  revert acc. induction links as [|l links IH]; intros acc; simpl.
  - split; [by left | intros [?|(link & Hin & _)]; [done | by apply elem_of_nil in Hin]].
  - rewrite IH. split.
    + intros [Hacc|(link & Hin & Hl)].
      * destruct (shop_url_of_link l) as [v|] eqn:E; [|by left].
        apply elem_of_union in Hacc as [Hv|?]; [|by left].
        apply elem_of_singleton in Hv. subst v.
        right. exists l. split; [constructor | done].
      * right. exists link. split; [by constructor | done].
    + intros [Hacc|(link & Hin & Hl)].
      * left. destruct (shop_url_of_link l); [apply elem_of_union; by right | done].
      * apply elem_of_cons in Hin as [Heq|Hin].
        -- subst link. left. rewrite Hl. apply elem_of_union. left.
           by apply elem_of_singleton.
        -- right. eauto.
Qed.

(** X25.  Whatever order the listing of the set takes, the discovered
    URLs are at most 10, without repetition, and each of them comes from a
    link of the page whose [href] contains "/shop/": it is that [href],
    with the origin of the site in front of it when the [href] starts with
    a slash, and it contains "/shop/" itself. *)
Theorem discovered_urls_are_shop_links
    (listing : gset string -> list string) (soup : Soup) :
  (forall s : gset string, listing s ≡ₚ elements s) ->
  let urls := discover_shop_urls_from listing soup in
  (length urls <= 10)%nat
  /\ NoDup urls
  /\ Forall (fun u =>
               str_in "/shop/" u = true
               /\ exists link href,
                    link ∈ soup_select soup "a[href*='/shop/']"
                    /\ get link "href" = Some href
                    /\ str_in "/shop/" href = true
                    /\ u = (if starts_with_slash href
                            then "https://weed.th" ++ href else href)%string)
            urls.
Proof.
  intros Hl. cbv zeta. unfold discover_shop_urls_from.
  split; [rewrite length_take; lia|]. split.
  - eapply sublist_NoDup; [|apply sublist_take].
    rewrite Hl. apply NoDup_elements.
  - apply Forall_take, Forall_forall. intros u Hu.
    rewrite Hl in Hu. apply elem_of_elements in Hu.
    unfold shop_urls in Hu. apply shop_urls_elem in Hu as [Hu|(link & Hin & Hs)];
      [by apply elem_of_empty in Hu|].
    unfold shop_url_of_link in Hs.
    destruct (get link "href") as [href|] eqn:Hh; [|discriminate].
    destruct (str_truthy href && str_in "/shop/" href) eqn:Hc; [|discriminate].
    apply andb_prop in Hc as [_ Hin']. injection Hs as <-. split.
    + destruct (starts_with_slash href); [by apply str_in_append | done].
    + exists link, href. done.
Qed.

End DiscoveryFacts.

(** ** The further properties on concrete inputs *)

Section MoreScenarios.
Import Samples DecimalFloat VerifySelectors VerifyReport ReportNotions Discovery
       MoreSamples.

Lemma product_item_accepts_nonblank_names_witness :
  strip "  Blue Dream " <> EmptyString
  /\ exists it,
       ProductItem_new "  Blue Dream " None None None None = Ok it
       /\ item_name it = "Blue Dream".
Proof.
  destruct (product_item_accepts_nonblank_names "  Blue Dream " None None None None)
    as [Hiff Hall].
  split; [discriminate|].
  destruct (proj2 Hiff) as [it Hit]; [discriminate|].
  exists it. split; [exact Hit|].
  destruct (Hall it Hit) as [-> _]. reflexivity.
Defined.

Lemma product_item_revalidates_witness :
  ProductItem_new " A " (Some (5 # 1)) None None None
    = Ok (mkProductItem "A" (Some (5 # 1)) None None None)
  /\ ProductItem_new "A" (Some (5 # 1)) None None None
    = Ok (mkProductItem "A" (Some (5 # 1)) None None None).
Proof.
  split; [reflexivity|].
  exact (product_item_revalidates " A " (Some (5 # 1)) None None None
           (mkProductItem "A" (Some (5 # 1)) None None None) eq_refl).
Defined.

Lemma shop_data_refusal_lists_fields_witness :
  ShopData_new refused_record
    = Raise (ValidationError "ShopData"
               [("rating", "ensure this value is less than or equal to 5");
                ("products", "At least one product item is required")])
  /\ exists errs,
       ValidationError "ShopData"
         [("rating", "ensure this value is less than or equal to 5");
          ("products", "At least one product item is required")]
       = ValidationError "ShopData" errs
       /\ NoDup errs.*1.
Proof.
  split; [reflexivity|].
  destruct (shop_data_refusal_lists_fields refused_record _ eq_refl)
    as (errs & He & _ & _ & _ & Hnd & _).
  exists errs. split; [exact He | exact Hnd].
Defined.

Lemma shop_data_accepts_valid_records_witness :
  dict_truthy (images shop_record) "main" = true
  /\ float_leb (rating shop_record) (float_of_Z 5) = true
  /\ ShopData_new shop_record = Ok shop_record.
Proof.
  split; [reflexivity|]. split; [reflexivity|].
  apply (shop_data_accepts_valid_records shop_record); try reflexivity.
  intros z [= <-]. lia.
Defined.

Lemma get_text_trimmed_or_required_witness :
  name_only !! "description" = None
  /\ _get_text name_only "description"
     = Raise (ValueError "Required field 'description' is missing")
  /\ (_get_text name_only "name" = Ok "Green House"
      /\ strip "Green House" = "Green House").
Proof.
  split; [reflexivity|]. split.
  - destruct (get_text_trimmed_or_required name_only "description") as [_ Hraise].
    apply Hraise; [by apply not_optional | by left].
  - split; [reflexivity|].
    destruct (get_text_trimmed_or_required name_only "name") as [Hok _].
    destruct (Hok "Green House" eq_refl) as [Hs _]. exact Hs.
Defined.

Lemma returned_main_image_is_first_src_witness :
  extract_from shop_raw (document shop_page) = Ok shop_page_record
  /\ exists src,
       src <> EmptyString /\ images shop_page_record !! "main" = Some (VStr src).
Proof.
  split; [exact extract_shop_page|].
  destruct (returned_main_image_is_first_src shop_raw (document shop_page)
              shop_page_record extract_shop_page)
    as (img & rest & src & _ & _ & Hne & Hm).
  exists src. split; [exact Hne | exact Hm].
Defined.

Lemma returned_texts_trimmed_nonempty_witness :
  extract_from shop_raw (document shop_page) = Ok shop_page_record
  /\ name shop_page_record <> EmptyString
  /\ description shop_page_record <> EmptyString.
Proof.
  split; [exact extract_shop_page|].
  destruct (returned_texts_trimmed_nonempty shop_raw (document shop_page)
              shop_page_record extract_shop_page)
    as ((s1 & _ & _ & H1) & (s2 & _ & _ & H2) & _).
  split; [exact H1 | exact H2].
Defined.

Lemma location_assembly_satisfies_model_witness :
  _process_location shop_raw (document shop_page) = Ok (location shop_page_record)
  /\ validate_location (location shop_page_record) = Ok (location shop_page_record).
Proof.
  split; [reflexivity|].
  destruct (location_assembly_satisfies_model shop_raw (document shop_page))
    as [Hok _].
  destruct (Hok (location shop_page_record) eq_refl) as [Hv _]. exact Hv.
Defined.

Lemma returned_products_nonempty_witness :
  extract_from shop_raw (document shop_page) = Ok shop_page_record
  /\ exists c cs items,
       shop_raw !! "products.items" = Some (RNodes (c :: cs))
       /\ products shop_page_record !! "items" = Some (VList (VDict <$> items))
       /\ length items = length (c :: cs).
Proof.
  split; [exact extract_shop_page|].
  destruct (returned_products_nonempty shop_raw (document shop_page)
              shop_page_record extract_shop_page)
    as (cat & cats & c & cs & items & _ & Hi & _ & Hp & Hall & _).
  exists c, cs, items. split; [exact Hi|]. split; [exact Hp|].
  symmetry. exact (Forall2_length _ _ _ Hall).
Defined.

Lemma returned_record_has_required_entries_witness :
  extract_from shop_raw (document shop_page) = Ok shop_page_record
  /\ raw_truthy (shop_raw !! "name") = true.
Proof.
  split; [exact extract_shop_page|].
  pose proof (returned_record_has_required_entries shop_raw (document shop_page)
                shop_page_record extract_shop_page) as H.
  apply Forall_cons_1 in H as [H _]. exact H.
Defined.

Lemma extract_exception_kinds_witness :
  extract_from (super_extract page_without_items) page_without_items
    = Raise (ValidationError "ShopData"
               [("products", "At least one product item is required")])
  /\ exists errs,
       ValidationError "ShopData" [("products", "At least one product item is required")]
       = ValidationError "ShopData" errs
       /\ errs.*1 `sublist_of` ["rating"; "images"; "products"].
Proof.
  assert (extract_from (super_extract page_without_items) page_without_items
          = Raise (ValidationError "ShopData"
                     [("products", "At least one product item is required")])) as Hr
    by reflexivity.
  split; [exact Hr|].
  destruct (extract_exception_kinds (super_extract page_without_items)
              page_without_items _ Hr)
    as [[msg H]|[[msg H]|[H|(errs & He & _ & Hs)]]]; try discriminate H.
  exists errs. split; [exact He | exact Hs].
Defined.

Lemma contact_present_iff_matched_witness :
  nodes_or_absent (website_only !! "contact.website")
  /\ nodes_or_absent (website_only !! "contact.line")
  /\ exists c d,
       _process_contact website_only = Ok c /\ c = Some d
       /\ d !! "website" = Some (VStr "https://green.example")
       /\ d !! "line" = None.
Proof.
  assert (nodes_or_absent (website_only !! "contact.website")) as Hw
    by (right; eexists; reflexivity).
  assert (nodes_or_absent (website_only !! "contact.line")) as Hl
    by (left; reflexivity).
  split; [exact Hw|]. split; [exact Hl|].
  destruct (contact_present_iff_matched website_only Hw Hl) as (c & Hc & Hn & Hd).
  destruct c as [d|]; [|by destruct (proj1 Hn eq_refl) as [H _]].
  exists (Some d), d. split; [exact Hc|]. split; [reflexivity|].
  destruct (Hd d eq_refl) as [H1 H2]. split; [exact H1 | exact H2].
Defined.

Lemma optional_coercions_never_raise_witness :
  nodes_or_absent (shop_raw !! "special_offers")
  /\ is_ok (_parse_special_offers (shop_raw !! "special_offers")) = true.
Proof.
  assert (forall f, shop_raw !! f = None -> nodes_or_absent (shop_raw !! f)) as Habs
    by (intros f Hf; by left).
  split; [by apply Habs|].
  apply (optional_coercions_never_raise shop_raw); by apply Habs.
Defined.

Lemma product_fails_only_for_name_witness :
  (exists product, product_of_container blue_dream = Ok product)
  /\ ~ (exists product, product_of_container nameless = Ok product).
Proof.
  split.
  - apply (product_fails_only_for_name blue_dream).
    exists (text_node "Blue Dream"). split; [reflexivity | discriminate].
  - intros H. apply (product_fails_only_for_name nameless) in H as (n & Hn & _).
    discriminate Hn.
Defined.

Lemma safe_helpers_read_first_element_witness :
  element_truthy (EList []) = false
  /\ VerifyReport.get_text_safely (EList []) = EmptyString
  /\ VerifyReport.get_text_safely (get_first_element (EList [text_node " a "; text_node "b"]))
     = "a".
Proof.
  split; [reflexivity|]. split.
  - destruct (safe_helpers_read_first_element (EList []) "src") as (_ & _ & _ & H).
    by destruct (H eq_refl).
  - destruct (safe_helpers_read_first_element
                (EList [text_node " a "; text_node "b"]) "src") as (H & _).
    rewrite H. reflexivity.
Defined.

Lemma validate_selector_counts_matches_witness :
  soup_select empty_soup (cfg_selector name_entry) = []
  /\ validation_errors (validate_selector empty_soup "basic" "name" name_entry) = []
  /\ count (validate_selector heading_soup "basic" "name" name_entry) = 2%nat.
Proof.
  split; [reflexivity|]. split.
  - destruct (validate_selector_counts_matches empty_soup "basic" "name" name_entry)
      as (_ & _ & _ & H & _).
    by destruct (H eq_refl) as (_ & _ & He & _).
  - by destruct (validate_selector_counts_matches heading_soup "basic" "name" name_entry)
      as (-> & _).
Defined.

Lemma validation_message_severity_witness :
  cfg_validation name_entry = Some (fun x => Ok (has_text x))
  /\ validation_errors (validate_selector heading_soup "basic" "name" name_entry) = []
  /\ validation_warnings (validate_selector heading_soup "basic" "name" name_entry) = [].
Proof.
  split; [reflexivity|].
  destruct (validation_message_severity heading_soup "basic" "name" name_entry)
    as (_ & _ & _ & H).
  exact (H _ _ _ eq_refl eq_refl eq_refl).
Defined.

Lemma html_context_bounded_witness :
  String.index 0 "<h2>" (soup_html heading_soup) = None
  /\ get_html_context heading_soup (mkNode [] ∅ "<h2>" (fun _ => [])) = "<h2>".
Proof.
  split; [reflexivity|].
  destruct (html_context_bounded heading_soup (mkNode [] ∅ "<h2>" (fun _ => [])))
    as [_ H].
  exact (H eq_refl).
Defined.

Lemma missing_required_iff_witness :
  cfg_required name_entry = true
  /\ soup_select empty_soup (cfg_selector name_entry) = []
  /\ "basic.name"
     ∈ missing_required
         (verify_selectors_with [("basic", [("name", name_entry)])] "url" empty_soup).
Proof.
  split; [reflexivity|]. split; [reflexivity|].
  apply (missing_required_iff [("basic", [("name", name_entry)])] "url" empty_soup).
  exists "basic", "name", name_entry.
  split; [by left|]. split; [reflexivity|]. split; [reflexivity | by left].
Defined.

Lemma report_of_page_without_match_witness :
  (forall q, soup_select empty_soup q = [])
  /\ report_validation_errors (verify_selectors_from "url" empty_soup) = []
  /\ length (missing_required (verify_selectors_from "url" empty_soup)) = 12%nat.
Proof.
  assert (forall q, soup_select empty_soup q = []) as Hno by (intros q; reflexivity).
  split; [exact Hno|].
  destruct (report_of_page_without_match "url" empty_soup Hno) as (Hm & _ & He & _).
  split; [exact He|]. by rewrite Hm.
Defined.

Lemma harness_covers_strategy_selectors_witness :
  selectors !! "images.main"
    = Some "div.FeaturedImage_featuredImage__GA2Cw img[alt*='og.th']"
  /\ exists section name config,
       In (section, name, config) (flat_table SELECTORS_TO_TEST)
       /\ cfg_selector config
          = "div.FeaturedImage_featuredImage__GA2Cw img[alt*='og.th']".
Proof.
  split; [reflexivity|].
  destruct (harness_covers_strategy_selectors "images.main"
              "div.FeaturedImage_featuredImage__GA2Cw img[alt*='og.th']" eq_refl)
    as (section & name & config & Hin & Hs & _).
  exists section, name, config. split; [exact Hin | exact Hs].
Defined.

Lemma discovered_urls_are_shop_links_witness :
  (forall s : gset string, elements s ≡ₚ elements s)
  /\ (length (discover_shop_urls_from elements directory_soup) <= 10)%nat
  /\ NoDup (discover_shop_urls_from elements directory_soup).
Proof.
  assert (forall s : gset string, elements s ≡ₚ elements s) as Hl by reflexivity.
  split; [exact Hl|].
  destruct (discovered_urls_are_shop_links elements directory_soup Hl) as (H1 & H2 & _).
  split; [exact H1 | exact H2].
Defined.

(** The URL that each link of the directory page adds. *)
Example shop_url_of_link_examples :
  shop_url_of_link <$> soup_select directory_soup "a[href*='/shop/']"
  = [Some "https://weed.th/shop/green-house/";
     Some "https://weed.th/shop/green-house/"; None].
Proof. reflexivity. Qed.

End MoreScenarios.
